(** * update_can_ips.py: dedup, formatting and splicing of CIDR rule sections

    A shallow embedding of [scripts/update_can_ips.py].  Pure functions of the
    script are Rocq functions; code that can raise returns a [result]; the
    file on disk and the error stream are threaded through an explicit
    [world].  The Python standard library ([ipaddress], [json], [urllib],
    [str.splitlines]) is not part of the script: its parsers and printers are
    Section variables, its arithmetic on network objects is written out. *)

From Stdlib Require Import ZArith Lia Bool.
From stdpp Require Import base option list sorting strings pretty.

Local Open Scope Z_scope.

(** ** Exceptions and results *)

(** The exceptions the script and the library functions it calls raise.
    [SystemExit] derives from [BaseException] only; every other constructor
    is a subclass of [Exception].  An asynchronous [KeyboardInterrupt], which
    a signal can raise inside any call and which is no [Exception] either, is
    not part of the model: what follows is about runs that no signal
    interrupts. *)
Inductive exn : Type :=
| SystemExit (code : string)
| AttributeError (msg : string)
| TypeError (msg : string)
| ValueError (msg : string)
| OSError (msg : string).

(** [isinstance(e, Exception)] *)
Definition is_Exception (e : exn) : bool :=
  match e with
  | SystemExit _ => false
  | _ => true
  end.

(** [str(e)] *)
Definition exn_str (e : exn) : string :=
  match e with
  | SystemExit m | AttributeError m | TypeError m | ValueError m | OSError m => m
  end.

Inductive result (A : Type) : Type :=
| Ok (a : A)
| Raise (e : exn).
Arguments Ok {A} a.
Arguments Raise {A} e.

#[global] Instance result_ret : MRet result := fun _ a => Ok a.
#[global] Instance result_bind : MBind result := fun _ _ f m =>
  match m with
  | Ok a => f a
  | Raise e => Raise e
  end.

(** ** Networks ([ipaddress.IPv4Network], [ipaddress.IPv6Network]) *)

Inductive ip_version : Type := IPv4 | IPv6.

#[global] Instance ip_version_eq_dec : EqDecision ip_version.
Proof. solve_decision. Defined.

(** [net.version] as the integer Python compares and sorts by. *)
Definition version_number (v : ip_version) : Z :=
  match v with
  | IPv4 => 4
  | IPv6 => 6
  end.

(** [net.max_prefixlen] *)
Definition max_prefixlen (v : ip_version) : Z :=
  match v with
  | IPv4 => 32
  | IPv6 => 128
  end.

(** [_ALL_ONES = 2**max_prefixlen - 1] *)
Definition ALL_ONES (v : ip_version) : Z := 2 ^ max_prefixlen v - 1.

(** A network object: its version, the integer of its network address, its
    prefix length and, for an IPv6 network written with a zone
    ([fe80::%eth0/64]), the scope id of its network address.  The sort keys
    and the broadcast address see the integer only; equality of networks and
    the comparison [<=] of addresses see the scope id too. *)
Record network : Type := Network {
  version : ip_version;
  network_address : Z;          (* int(net.network_address) *)
  prefixlen : Z;
  scope_id : option string      (* net.network_address.scope_id *)
}.

#[global] Instance network_eq_dec : EqDecision network.
Proof. solve_decision. Defined.

(** [int(net.netmask)], from [_ip_int_from_prefix]:
    [_ALL_ONES ^ (_ALL_ONES >> prefixlen)] *)
Definition netmask (n : network) : Z :=
  Z.lxor (ALL_ONES (version n)) (Z.shiftr (ALL_ONES (version n)) (prefixlen n)).

(** [int(net.hostmask)]: [int(netmask) ^ _ALL_ONES] *)
Definition hostmask (n : network) : Z :=
  Z.lxor (netmask n) (ALL_ONES (version n)).

(** [int(net.broadcast_address)]: [int(network_address) | int(hostmask)] *)
Definition broadcast_address (n : network) : Z :=
  Z.lor (network_address n) (hostmask n).

(** The invariant every network object satisfies once constructed: the prefix
    length is in range, the address fits the address width and has no host
    bit set ([ip_network(p, strict=False)] masks the host bits away). *)
Definition wf_network (n : network) : Prop :=
  0 <= prefixlen n <= max_prefixlen (version n) /\
  0 <= network_address n <= ALL_ONES (version n) /\
  Z.land (network_address n) (hostmask n) = 0.

(** [x <= y] on the network addresses of two networks of one version, as
    [functools.total_ordering] derives it: [x < y or x == y], where [<]
    compares the integers and [==] compares the integers and the scope
    ids. *)
Definition address_le (x y : network) : bool :=
  (network_address x <? network_address y) ||
  ((network_address x =? network_address y) &&
   bool_decide (scope_id x = scope_id y)).

(** [a.subnet_of(b)], that is [_is_subnet_of(a, b)]: a [TypeError] when the
    versions differ (the library's message names the two networks),
    otherwise [b.network_address <= a.network_address and
    b.broadcast_address >= a.broadcast_address]; a broadcast address is built
    from an integer and has no scope id, and [>=] is [not <]. *)
Definition subnet_of (a b : network) : result bool :=
  if bool_decide (version a = version b)
  then Ok (address_le b a &&
           negb (broadcast_address b <? broadcast_address a))
  else Raise (TypeError "networks are not of the same version").

(** The address range of [a] lies within the address range of [b]: [a] is a
    subnet of [b] in the sense of numeric ranges. *)
Definition range_within (a b : network) : Prop :=
  version a = version b /\
  network_address b <= network_address a /\
  broadcast_address a <= broadcast_address b.

(** An address [addr] of version [v] lies in the range of [n]. *)
Definition in_range (n : network) (v : ip_version) (addr : Z) : Prop :=
  version n = v /\ network_address n <= addr <= broadcast_address n.

(** ** [sorted(xs, key=...)] with tuple keys *)

Definition key3 : Type := Z * Z * Z.

(** Python's [<=] on 3-tuples of integers: lexicographic. *)
Definition key3_leb (k1 k2 : key3) : bool :=
  let '(a1, b1, c1) := k1 in
  let '(a2, b2, c2) := k2 in
  (a1 <? a2) || ((a1 =? a2) && ((b1 <? b2) || ((b1 =? b2) && (c1 <=? c2)))).

Section Sorted.
Context {A : Type} (key : A -> key3).

(** Insert [x] in front of the first element whose key is not smaller, so
    that of two elements with equal keys the one that came first in the
    input stays first: [sorted] is stable. *)
Fixpoint sorted_insert (x : A) (l : list A) : list A :=
  match l with
  | [] => [x]
  | y :: l' => if key3_leb (key x) (key y) then x :: l else y :: sorted_insert x l'
  end.

Definition sorted (l : list A) : list A := foldr sorted_insert [] l.

(** The order [sorted] sorts by. *)
Definition key_le (x y : A) : Prop := key3_leb (key x) (key y) = true.

(** [x] occurs in [l] at a position no later than one of [y]. *)
Definition precedes (l : list A) (x y : A) : Prop :=
  exists i j : nat, l !! i = Some x /\ l !! j = Some y /\ (i <= j)%nat.

(** The order a stable sort of [l] puts its elements in: by key, and by
    position in [l] among elements with equal keys. *)
Definition stable_le (l : list A) (x y : A) : Prop :=
  key_le x y /\ (key_le y x -> precedes l x y).
End Sorted.

(** ** [dedupe_subnets] *)

(** [lambda n: (n.version, n.prefixlen, int(n.network_address))] *)
Definition key_by_prefixlen (n : network) : key3 :=
  (version_number (version n), prefixlen n, network_address n).

(** [lambda n: (n.version, int(n.network_address), n.prefixlen)] *)
Definition key_by_address (n : network) : key3 :=
  (version_number (version n), network_address n, prefixlen n).

(** The inner loop: [covered] is set at the first [k] in [kept] with
    [net.version == k.version and net.subnet_of(k)]. *)
Fixpoint covered_by (net : network) (kept : list network) : result bool :=
  match kept with
  | [] => Ok false
  | k :: kept' =>
      c ← (if bool_decide (version_number (version net) = version_number (version k))
           then subnet_of net k
           else Ok false);
      if (c : bool) then Ok true else covered_by net kept'
  end.

(** The outer loop over [nets_sorted], appending to [kept]. *)
Fixpoint dedupe_loop (nets_sorted kept : list network) : result (list network) :=
  match nets_sorted with
  | [] => Ok kept
  | net :: rest =>
      covered ← covered_by net kept;
      dedupe_loop rest (if (covered : bool) then kept else kept ++ [net])
  end.

Definition dedupe_subnets (nets : list network) : result (list network) :=
  let nets_sorted := sorted key_by_prefixlen nets in
  kept ← dedupe_loop nets_sorted [];
  Ok (sorted key_by_address kept).

(** ** Strings *)

(** [s.startswith(p)] *)
Definition startswith (p s : string) : bool := String.prefix p s.

(** [s.endswith(t)]: some tail of [s] is [t]. *)
Fixpoint endswith (t s : string) : bool :=
  String.eqb s t ||
  match s with
  | EmptyString => false
  | String _ s' => endswith t s'
  end.

(** The line feed, Python's ["\n"]. *)
Definition NL : string := String (Ascii.ascii_of_nat 10) EmptyString.

(** [sep.join(lines)] *)
Fixpoint join (sep : string) (lines : list string) : string :=
  match lines with
  | [] => EmptyString
  | [l] => l
  | l :: ls => l +:+ sep +:+ join sep ls
  end.

(** ** [replace_section] *)

(** [lines.index(x)]: the position of the first line equal to [x], a
    [ValueError] when there is none. *)
Fixpoint index (x : string) (lines : list string) : result nat :=
  match lines with
  | [] => Raise (ValueError ("'" +:+ x +:+ "' is not in list"))
  | l :: lines' => if String.eqb l x then Ok O else i ← index x lines'; Ok (S i)
  end.

(** The [while] loop that advances [end_idx]; it runs at most [len(lines)]
    times, which is the fuel [replace_section] gives it. *)
Fixpoint scan_end (fuel : nat) (lines : list string) (end_idx : nat) : nat :=
  match fuel with
  | O => end_idx
  | S fuel' =>
      match lines !! end_idx with
      | Some line =>
          if negb (startswith "# " line)
          then scan_end fuel' lines (S end_idx)
          else end_idx
      | None => end_idx
      end
  end.

Definition replace_section (lines : list string) (header : string)
    (new_block : list string) : result (list string) :=
  let header_line := "# " +:+ header in
  start_idx ←
    match index header_line lines with
    | Ok i => Ok i
    | Raise (ValueError _) =>
        Raise (SystemExit ("Missing section header: " +:+ header_line))
    | Raise e => Raise e
    end;
  let end_idx := scan_end (length lines) lines (start_idx + 1)%nat in
  let block := new_block ++ [EmptyString] in
  Ok (take (start_idx + 1)%nat lines ++ block ++ drop end_idx lines).

(** ** Decoded JSON: the Python objects [json.load] produces *)

(** A Python [float]: a dyadic rational, an infinity or a NaN. *)
Inductive pyfloat : Type :=
| Finite (mantissa exponent : Z)       (* mantissa * 2**exponent *)
| Infinity (negative : bool)
| NaN.

#[warnings="-register-all"]
Inductive pyobj : Type :=
| PyNone
| PyBool (b : bool)
| PyInt (z : Z)
| PyFloat (f : pyfloat)
| PyStr (s : string)
| PyList (items : list pyobj)
| PyDict (items : list (string * pyobj)).   (* keys are unique, in insertion order *)

(** [type(o).__name__] *)
Definition type_name (o : pyobj) : string :=
  match o with
  | PyNone => "NoneType"
  | PyBool _ => "bool"
  | PyInt _ => "int"
  | PyFloat _ => "float"
  | PyStr _ => "str"
  | PyList _ => "list"
  | PyDict _ => "dict"
  end.

(** [bool(o)], the test of [if p] *)
Definition truthy (o : pyobj) : bool :=
  match o with
  | PyNone => false
  | PyBool b => b
  | PyInt z => negb (z =? 0)
  | PyFloat (Finite m _) => negb (m =? 0)
  | PyFloat _ => true
  | PyStr s => negb (String.eqb s EmptyString)
  | PyList items => negb (bool_decide (length items = O))
  | PyDict items => negb (bool_decide (length items = O))
  end.

Fixpoint dict_lookup (key : string) (items : list (string * pyobj)) : option pyobj :=
  match items with
  | [] => None
  | (k, v) :: items' => if String.eqb k key then Some v else dict_lookup key items'
  end.

(** [o.get(key, default)]: only a dict has the method. *)
Definition py_get (o : pyobj) (key : string) (dflt : pyobj) : result pyobj :=
  match o with
  | PyDict items => Ok (default dflt (dict_lookup key items))
  | _ => Raise (AttributeError
                  ("'" +:+ type_name o +:+ "' object has no attribute 'get'"))
  end.

(** [iter(o)], the items a [for] loop or a comprehension visits: the elements
    of a list, the keys of a dict, the characters of a str (one item per byte
    of the string here; each item is a str either way); other objects are not
    iterable. *)
Definition py_iter (o : pyobj) : result (list pyobj) :=
  match o with
  | PyList items => Ok items
  | PyDict items => Ok (map (fun kv => PyStr (fst kv)) items)
  | PyStr s => Ok (map (fun c => PyStr (String c EmptyString)) (String.list_ascii_of_string s))
  | _ => Raise (TypeError ("'" +:+ type_name o +:+ "' object is not iterable"))
  end.

(** ** The world outside the script *)

(** What is at [FILE_PATH] when it exists. *)
Inductive file : Type :=
| TextFile (text : string)   (* read_text returns text *)
| Unreadable (e : exn).      (* read_text raises e: a directory, no permission,
                                bytes that are not UTF-8 *)

(** What reaches the error stream. *)
Inductive stderr_item : Type :=
| Line (s : string)
| Traceback (e : exn).

Record world : Type := World {
  disk : option file;            (* None: FILE_PATH does not exist *)
  write_failure : option (exn * option string);
                                 (* Some (e, partial): writing FILE_PATH raises
                                    e; partial = None when the file could not
                                    be opened and is untouched, Some t when it
                                    was opened and is left holding t *)
  stderr : list stderr_item
}.

(** Stateful code: a result and the world after it. *)
Definition M (A : Type) : Type := world -> result A * world.

#[global] Instance M_ret : MRet M := fun _ a w => (Ok a, w).
#[global] Instance M_bind : MBind M := fun _ _ f m w =>
  match m w with
  | (Ok a, w') => f a w'
  | (Raise e, w') => (Raise e, w')
  end.

Definition lift {A : Type} (r : result A) : M A := fun w => (r, w).

Definition FILE_PATH : string := "surge/CAN-wifi-calling.list".

(** [FILE_PATH.exists()] *)
Definition path_exists : M bool := fun w => (Ok (bool_decide (is_Some (disk w))), w).

(** [FILE_PATH.read_text(encoding="utf-8")] *)
Definition read_text : M string := fun w =>
  match disk w with
  | Some (TextFile text) => (Ok text, w)
  | Some (Unreadable e) => (Raise e, w)
  | None => (Raise (OSError ("No such file or directory: " +:+ FILE_PATH)), w)
  end.

(** [FILE_PATH.write_text(text, encoding="utf-8")] *)
Definition write_text (text : string) : M unit := fun w =>
  match write_failure w with
  | Some (e, None) => (Raise e, w)
  | Some (e, Some partial) =>
      (Raise e, World (Some (TextFile partial)) (write_failure w) (stderr w))
  | None => (Ok (), World (Some (TextFile text)) (write_failure w) (stderr w))
  end.

(** [print(s, file=sys.stderr)] *)
Definition print_stderr (s : string) : M unit := fun w =>
  (Ok (), World (disk w) (write_failure w) (stderr w ++ [Line s])).

Definition RIPESTAT_format (asn : Z) : string :=
  "https://stat.ripe.net/data/announced-prefixes/data.json?resource=AS" +:+ pretty asn.

Definition SECTION_ASNS : list (string * list Z) :=
  [ ("Freedom Mobile", [20365; 36273]);
    ("Bell Mobility (AS36522)", [36522]);
    ("Rogers Communications (Rogers/Fido) (AS812)", [812]);
    ("TELUS Mobility (AS14663)", [14663]) ].

Section Script.
(** The standard library the script calls into. *)
Variable urlopen : string -> result string.       (* the body behind urlopen(url, timeout=30) *)
Variable json_load : string -> result pyobj.      (* json.load on that body *)
Variable ip_network : pyobj -> result network.    (* ipaddress.ip_network(p, strict=False) *)
Variable net_str : network -> string.             (* str(net) *)
Variable splitlines : string -> list string.      (* str.splitlines *)

Definition fetch_prefixes (asn : Z) : result (list pyobj) :=
  let url := RIPESTAT_format asn in
  resp ← urlopen url;
  data ← json_load resp;
  d ← py_get data "data" (PyDict []);
  ps ← py_get d "prefixes" (PyList []);
  entries ← py_iter ps;
  prefixes ← mapM (fun p => py_get p "prefix" PyNone) entries;
  Ok (filter (fun p => truthy p = true) prefixes).

(** The loop body of [build_lines]: the line appended for [net]. *)
Definition rule_line (net : network) : string :=
  if bool_decide (version_number (version net) = 4)
  then "IP-CIDR," +:+ net_str net +:+ ",no-resolve"
  else "IP-CIDR6," +:+ net_str net +:+ ",no-resolve".

Definition build_lines (prefixes : list pyobj) : result (list string) :=
  nets ← mapM ip_network prefixes;
  deduped ← dedupe_subnets nets;
  Ok (foldl (fun lines net => lines ++ [rule_line net]) [] deduped).

(** [for asn in asns: prefixes.extend(fetch_prefixes(asn))] *)
Fixpoint fetch_all (asns : list Z) (prefixes : list pyobj) : result (list pyobj) :=
  match asns with
  | [] => Ok prefixes
  | asn :: asns' => ps ← fetch_prefixes asn; fetch_all asns' (prefixes ++ ps)
  end.

(** [for header, asns in SECTION_ASNS.items(): ...] *)
Fixpoint update_sections (table : list (string * list Z)) (lines : list string)
    : result (list string) :=
  match table with
  | [] => Ok lines
  | (header, asns) :: table' =>
      prefixes ← fetch_all asns [];
      new_block ← build_lines prefixes;
      lines' ← replace_section lines header new_block;
      update_sections table' lines'
  end.

Definition main : M unit :=
  present ← path_exists;
  if negb present then lift (Raise (SystemExit ("Missing file: " +:+ FILE_PATH)))
  else
    text ← read_text;
    lines ← lift (update_sections SECTION_ASNS (splitlines text));
    write_text (join NL lines +:+ NL).

(** The [__main__] guard: [except Exception] prints and re-raises; it does
    not match [SystemExit]. *)
Definition guarded_main : M unit := fun w =>
  match main w with
  | (Raise e, w') =>
      if is_Exception e
      then match print_stderr ("update_can_ips.py failed: " +:+ exn_str e) w' with
           | (_, w'') => (Raise e, w'')
           end
      else (Raise e, w')
  | r => r
  end.

(** The interpreter around the script: an exception that leaves it is
    reported on the error stream (the text of a [SystemExit], a traceback
    otherwise) and the exit status is 1; a normal end gives 0. *)
Definition run_script (w : world) : Z * world :=
  match guarded_main w with
  | (Ok _, w') => (0, w')
  | (Raise (SystemExit code), w') =>
      (1, World (disk w') (write_failure w') (stderr w' ++ [Line code]))
  | (Raise e, w') =>
      (1, World (disk w') (write_failure w') (stderr w' ++ [Traceback e]))
  end.
End Script.

(** ** A fragment of the library and of the network, for worked examples

    The functions below agree with the Python library on the inputs they
    name; they are used to run the script on concrete inputs, never in the
    general statements. *)

(** The double quote character, as a string. *)
Definition DQ : string := String (Ascii.ascii_of_nat 34) EmptyString.

Definition quoted (s : string) : string := DQ +:+ s +:+ DQ.

Definition sample_ip_network (p : pyobj) : result network :=
  match p with
  | PyStr s =>
      if String.eqb s "10.0.0.0/8" then Ok (Network IPv4 167772160 8 None)
      else if String.eqb s "10.1.0.0/16" then Ok (Network IPv4 167837696 16 None)
      else if String.eqb s "192.168.0.0/24" then Ok (Network IPv4 3232235520 24 None)
      else if String.eqb s "2001:db8::/32"
           then Ok (Network IPv6 42540766411282592856903984951653826560 32 None)
      else Raise (ValueError
                    ("'" +:+ s +:+ "' does not appear to be an IPv4 or IPv6 network"))
  | _ => Raise (ValueError "does not appear to be an IPv4 or IPv6 network")
  end.

Definition sample_net_str (n : network) : string :=
  if bool_decide (n = Network IPv4 167772160 8 None) then "10.0.0.0/8"
  else if bool_decide (n = Network IPv4 167837696 16 None) then "10.1.0.0/16"
  else if bool_decide (n = Network IPv4 3232235520 24 None) then "192.168.0.0/24"
  else if bool_decide (n = Network IPv6 42540766411282592856903984951653826560 32 None)
       then "2001:db8::/32"
  else "?".

(** [{"data": {"prefixes": [{"prefix": "10.1.0.0/16"}, {"prefix": "10.0.0.0/8"},
    {"prefix": EMPTY}, {"asn": 1}]}}], EMPTY being the empty string *)
Definition body_two_prefixes : string :=
  "{" +:+ quoted "data" +:+ ": {" +:+ quoted "prefixes" +:+ ": [{"
  +:+ quoted "prefix" +:+ ": " +:+ quoted "10.1.0.0/16" +:+ "}, {"
  +:+ quoted "prefix" +:+ ": " +:+ quoted "10.0.0.0/8" +:+ "}, {"
  +:+ quoted "prefix" +:+ ": " +:+ quoted EmptyString +:+ "}, {"
  +:+ quoted "asn" +:+ ": 1}]}}".

(** [{"data": {"prefixes": [{"prefix": "2001:db8::/32"},
    {"prefix": "192.168.0.0/24"}]}}] *)
Definition body_mixed : string :=
  "{" +:+ quoted "data" +:+ ": {" +:+ quoted "prefixes" +:+ ": [{"
  +:+ quoted "prefix" +:+ ": " +:+ quoted "2001:db8::/32" +:+ "}, {"
  +:+ quoted "prefix" +:+ ": " +:+ quoted "192.168.0.0/24" +:+ "}]}}".

(** [{"data": {}}] *)
Definition body_no_prefixes : string := "{" +:+ quoted "data" +:+ ": {}}".

(** [{"status": "ok"}] *)
Definition body_no_data : string :=
  "{" +:+ quoted "status" +:+ ": " +:+ quoted "ok" +:+ "}".

(** Not JSON at all. *)
Definition body_html : string := "<html>Service Unavailable</html>".

Definition sample_urlopen (url : string) : result string :=
  if String.eqb url (RIPESTAT_format 20365) then Ok body_two_prefixes
  else if String.eqb url (RIPESTAT_format 36273) then Ok body_no_prefixes
  else if String.eqb url (RIPESTAT_format 36522) then Ok body_no_data
  else if String.eqb url (RIPESTAT_format 812) then Ok body_mixed
  else if String.eqb url (RIPESTAT_format 14663) then Ok body_two_prefixes
  else if String.eqb url (RIPESTAT_format 64496) then Ok body_html
  else Raise (OSError "HTTP Error 404: Not Found").

Definition sample_json_load (body : string) : result pyobj :=
  if String.eqb body body_two_prefixes
  then Ok (PyDict [("data", PyDict [("prefixes", PyList [
             PyDict [("prefix", PyStr "10.1.0.0/16")];
             PyDict [("prefix", PyStr "10.0.0.0/8")];
             PyDict [("prefix", PyStr EmptyString)];
             PyDict [("asn", PyInt 1)]])])])
  else if String.eqb body body_mixed
  then Ok (PyDict [("data", PyDict [("prefixes", PyList [
             PyDict [("prefix", PyStr "2001:db8::/32")];
             PyDict [("prefix", PyStr "192.168.0.0/24")]])])])
  else if String.eqb body body_no_prefixes then Ok (PyDict [("data", PyDict [])])
  else if String.eqb body body_no_data then Ok (PyDict [("status", PyStr "ok")])
  else Raise (ValueError "Expecting value: line 1 column 1 (char 0)").

(** [str.splitlines] on text whose only line boundary is the line feed. *)
Fixpoint sample_splitlines_from (cur s : string) : list string :=
  match s with
  | EmptyString => if String.eqb cur EmptyString then [] else [cur]
  | String c s' =>
      if Ascii.eqb c (Ascii.ascii_of_nat 10)
      then cur :: sample_splitlines_from EmptyString s'
      else sample_splitlines_from (cur +:+ String c EmptyString) s'
  end.

Definition sample_splitlines (text : string) : list string :=
  sample_splitlines_from EmptyString text.

(** A target file with the four configured sections and stale rules. *)
Definition sample_file_lines : list string :=
  [ "# Canada Wi-Fi calling";
    "# Freedom Mobile"; "IP-CIDR,192.0.2.0/24,no-resolve"; EmptyString;
    "# Bell Mobility (AS36522)"; "IP-CIDR,198.51.100.0/24,no-resolve"; EmptyString;
    "# Rogers Communications (Rogers/Fido) (AS812)"; EmptyString;
    "# TELUS Mobility (AS14663)" ].

Definition sample_world : world :=
  World (Some (TextFile (join NL sample_file_lines +:+ NL))) None [].

(** The same file without its Bell section. *)
Definition sample_world_no_bell : world :=
  World (Some (TextFile (join NL
          [ "# Freedom Mobile"; "IP-CIDR,192.0.2.0/24,no-resolve"; EmptyString;
            "# Rogers Communications (Rogers/Fido) (AS812)"; EmptyString;
            "# TELUS Mobility (AS14663)" ] +:+ NL))) None [].

(** No file at [FILE_PATH]. *)
Definition sample_world_no_file : world := World None None [].

(** A file that cannot be read. *)
Definition sample_world_unreadable : world :=
  World (Some (Unreadable (OSError "[Errno 13] Permission denied: 'surge/CAN-wifi-calling.list'")))
        None [].

(** Link-local networks: [fe80::/10], [fe80::/64] and [fe80::%eth0/64], the
    last with a scope id. *)
Definition sample_fe80_10 : network :=
  Network IPv6 338288524927261089654018896841347694592 10 None.

Definition sample_fe80_64 : network :=
  Network IPv6 338288524927261089654018896841347694592 64 None.

Definition sample_fe80_eth0_64 : network :=
  Network IPv6 338288524927261089654018896841347694592 64 (Some "eth0").

(** A network that answers every request with the JSON list [[]], and the
    decoder on that body. *)
Definition sample_urlopen_list (url : string) : result string := Ok "[]".

Definition sample_json_load_list (body : string) : result pyobj :=
  if String.eqb body "[]" then Ok (PyList [])
  else Raise (ValueError "Expecting value: line 1 column 1 (char 0)").

(** What the run makes of [sample_file_lines] on the sample network. *)
Definition sample_updated_lines : list string :=
  [ "# Canada Wi-Fi calling";
    "# Freedom Mobile"; "IP-CIDR,10.0.0.0/8,no-resolve"; EmptyString;
    "# Bell Mobility (AS36522)"; EmptyString;
    "# Rogers Communications (Rogers/Fido) (AS812)";
    "IP-CIDR,192.168.0.0/24,no-resolve"; "IP-CIDR6,2001:db8::/32,no-resolve";
    EmptyString;
    "# TELUS Mobility (AS14663)"; "IP-CIDR,10.0.0.0/8,no-resolve"; EmptyString ].

(** ** Vocabulary for statements about files *)

(** The lines that start with ["# "], in the order of the file. *)
Definition header_lines (lines : list string) : list string :=
  filter (fun l => startswith "# " l = true) lines.

(** [lines] has a section [header] with body [body]: the first line equal to
    ["# " ++ header] is followed by [body], lines that do not start with
    ["# "], and then by the end of the file or by a line starting with
    ["# "]. *)
Definition has_section (lines : list string) (header : string)
    (body : list string) : Prop :=
  exists before after,
    lines = before ++ ("# " +:+ header) :: body ++ after /\
    (("# " +:+ header) ∉ before) /\
    Forall (fun l => startswith "# " l = false) body /\
    (after = [] \/ exists h t, after = h :: t /\ startswith "# " h = true).

(** * Properties *)

(** ** The order on keys and [sorted] *)

Lemma key3_leb_spec (k1 k2 : key3) :
  key3_leb k1 k2 = true <->
  k1.1.1 < k2.1.1 \/
  (k1.1.1 = k2.1.1 /\ (k1.1.2 < k2.1.2 \/ (k1.1.2 = k2.1.2 /\ k1.2 <= k2.2))).
Proof.
  destruct k1 as [[a1 b1] c1], k2 as [[a2 b2] c2]; simpl.
  rewrite orb_true_iff, andb_true_iff, orb_true_iff, andb_true_iff.
  rewrite !Z.ltb_lt, !Z.eqb_eq, Z.leb_le. tauto.
Qed.

(** Facts about lists in order. *)

Lemma StronglySorted_weaken {A : Type} (R1 R2 : relation A) (l : list A) :
  (forall x y, R1 x y -> R2 x y) -> StronglySorted R1 l -> StronglySorted R2 l.
Proof.
  intros Himpl. induction 1 as [|x l Hl IH Hx]; constructor; [done|].
  eapply Forall_impl; [exact Hx|]. auto.
Qed.

Lemma StronglySorted_NoDup {A : Type} (R : relation A) (l : list A) :
  (forall x, ~ R x x) -> StronglySorted R l -> NoDup l.
Proof.
  intros Hirr. induction 1 as [|x l Hl IH Hx]; constructor; [|done].
  intros Hin. rewrite Forall_forall in Hx. by apply (Hirr x), Hx.
Qed.

Lemma StronglySorted_related {A : Type} (R : relation A) (l : list A) (a b : A) :
  StronglySorted R l -> a ∈ l -> b ∈ l -> a = b \/ R a b \/ R b a.
Proof.
  induction 1 as [|x l Hl IH Hx]; intros Ha Hb.
  - by apply elem_of_nil in Ha.
  - rewrite Forall_forall in Hx.
    apply elem_of_cons in Ha as [->|Ha], Hb as [->|Hb]; auto.
Qed.

Lemma StronglySorted_lookup {A : Type} (R : relation A) (l : list A)
    (i j : nat) (a b : A) :
  StronglySorted R l -> l !! i = Some a -> l !! j = Some b -> (i < j)%nat -> R a b.
Proof.
  intros Hs. revert i j. induction Hs as [|x l Hl IH Hx]; intros i j Hi Hj Hlt.
  - by rewrite lookup_nil in Hi.
  - rewrite Forall_forall in Hx. destruct j as [|j]; [lia|].
    destruct i as [|i]; simpl in *.
    + injection Hi as <-. apply Hx. by eapply list_elem_of_lookup_2.
    + apply (IH i j); [done..|lia].
Qed.

Lemma StronglySorted_pairwise {A : Type} (R : relation A) (l : list A) :
  NoDup l -> (forall a b, a ∈ l -> b ∈ l -> a <> b -> R a b) -> StronglySorted R l.
Proof.
  induction 1 as [|x l Hx Hl IH]; intros HR; constructor.
  - apply IH. intros a b Ha Hb. apply HR; by right.
  - apply Forall_forall. intros y Hy. apply HR; [by left|by right|].
    by intros ->.
Qed.

Lemma StronglySorted_filter {A : Type} (R : relation A) (P : A -> Prop)
    `{!forall x, Decision (P x)} (l : list A) :
  StronglySorted R l -> StronglySorted R (filter P l).
Proof.
  induction 1 as [|x l Hl IH Hx]; [constructor|].
  rewrite filter_cons. destruct (decide (P x)); [|done].
  constructor; [done|]. rewrite Forall_forall in *.
  intros y [_ Hy]%list_elem_of_filter. by apply Hx.
Qed.

Section SortedFacts.
Context {A : Type} (key : A -> key3).

Lemma key_le_trans : Transitive (key_le key).
Proof.
  intros x y z. unfold key_le. rewrite !key3_leb_spec. lia.
Qed.

Lemma key_le_total : Total (key_le key).
Proof.
  intros x y. unfold key_le. rewrite !key3_leb_spec. lia.
Qed.

Lemma key_le_antisym : Inj (=) (=) key -> AntiSymm (=) (key_le key).
Proof.
  intros Hinj x y. unfold key_le. rewrite !key3_leb_spec. intros H1 H2.
  apply Hinj. destruct (key x) as [[a1 b1] c1], (key y) as [[a2 b2] c2].
  simpl in *. repeat f_equal; lia.
Qed.

(** Two elements each no greater than the other have the same key. *)
Lemma key_le_tie (x y : A) : key_le key x y -> key_le key y x -> key x = key y.
Proof.
  unfold key_le. rewrite !key3_leb_spec. intros H1 H2.
  destruct (key x) as [[a1 b1] c1], (key y) as [[a2 b2] c2].
  simpl in *. repeat f_equal; lia.
Qed.

Lemma key_le_refl_eq (x y : A) : key x = key y -> key_le key x y.
Proof.
  unfold key_le. intros ->. rewrite key3_leb_spec. lia.
Qed.

Lemma sorted_insert_perm (x : A) (l : list A) : sorted_insert key x l ≡ₚ x :: l.
Proof.
  induction l as [|y l IH]; simpl; [done|].
  destruct (key3_leb (key x) (key y)); [done|].
  rewrite IH. apply Permutation_swap.
Qed.

Lemma sorted_perm (l : list A) : sorted key l ≡ₚ l.
Proof.
  induction l as [|x l IH]; simpl; [done|].
  rewrite sorted_insert_perm. by rewrite IH.
Qed.

Lemma sorted_insert_Sorted (x : A) (l : list A) :
  Sorted (key_le key) l -> Sorted (key_le key) (sorted_insert key x l).
Proof.
  induction l as [|y l IH]; simpl; intros Hs.
  - repeat constructor.
  - destruct (key3_leb (key x) (key y)) eqn:Hxy.
    + constructor; [done|]. by constructor.
    + apply Sorted_inv in Hs as [Hs Hhd].
      constructor; [by apply IH|].
      assert (Hyx : key_le key y x).
      { destruct (key_le_total y x) as [H|H]; [done|].
        unfold key_le in H. congruence. }
      destruct l as [|z l]; simpl.
      * by constructor.
      * destruct (key3_leb (key x) (key z)); constructor; [done|].
        by apply HdRel_inv in Hhd.
Qed.

Lemma sorted_Sorted (l : list A) : Sorted (key_le key) (sorted key l).
Proof.
  induction l as [|x l IH]; simpl; [constructor|].
  by apply sorted_insert_Sorted.
Qed.

Lemma sorted_StronglySorted (l : list A) : StronglySorted (key_le key) (sorted key l).
Proof.
  apply (Sorted_StronglySorted (key_le key) (Transitive0 := key_le_trans)).
  apply sorted_Sorted.
Qed.

(** Sorting a list that is a rearrangement of a sorted list gives that
    sorted list, when the key tells the elements of the list apart. *)
Lemma sorted_unique_on (l k : list A) :
  (forall x y, x ∈ l -> y ∈ l -> key x = key y -> x = y) ->
  StronglySorted (key_le key) k -> l ≡ₚ k -> sorted key l = k.
Proof.
  intros Hinj Hk Hperm.
  apply (StronglySorted_unique_strong (key_le key));
    [|apply sorted_StronglySorted|done|by rewrite sorted_perm].
  intros x y Hx Hy Hxy Hyx. rewrite sorted_perm in Hx. rewrite <- Hperm in Hy.
  apply Hinj; [done..|]. by apply key_le_tie.
Qed.

(** *** Stability *)

Lemma precedes_head (x y : A) (l : list A) : y ∈ x :: l -> precedes (x :: l) x y.
Proof.
  intros [j Hj]%list_elem_of_lookup_1. exists O, j. repeat split; [done|lia].
Qed.

Lemma precedes_cons (x a b : A) (l : list A) :
  precedes l a b -> precedes (x :: l) a b.
Proof.
  intros (i & j & Hi & Hj & Hij). exists (S i), (S j). repeat split; [done..|lia].
Qed.

Lemma precedes_elem (l : list A) (a : A) : a ∈ l -> precedes l a a.
Proof.
  intros [i Hi]%list_elem_of_lookup_1. by exists i, i.
Qed.

Lemma precedes_antisym (l : list A) (a b : A) :
  NoDup l -> precedes l a b -> precedes l b a -> a = b.
Proof.
  intros Hnodup (i & j & Hi & Hj & Hij) (i' & j' & Hi' & Hj' & Hij').
  assert (i' = j) as -> by (by eapply NoDup_lookup).
  assert (j' = i) as -> by (by eapply NoDup_lookup).
  assert (i = j) as -> by lia. congruence.
Qed.

(** In a list without repetition, of two members one precedes the other. *)
Lemma precedes_total (l : list A) (a b : A) :
  a ∈ l -> b ∈ l -> precedes l a b \/ precedes l b a.
Proof.
  intros [i Hi]%list_elem_of_lookup_1 [j Hj]%list_elem_of_lookup_1.
  destruct (Nat.le_ge_cases i j); [left; by exists i, j|right; by exists j, i].
Qed.

Lemma stable_le_cons (x a b : A) (l : list A) :
  stable_le key l a b -> stable_le key (x :: l) a b.
Proof.
  intros [Hle Hpre]. split; [done|]. intros H. by apply precedes_cons, Hpre.
Qed.

Lemma sorted_insert_stable (x : A) (l s : list A) :
  (forall z, z ∈ s -> z ∈ l) ->
  StronglySorted (stable_le key l) s ->
  StronglySorted (stable_le key (x :: l)) (sorted_insert key x s).
Proof.
  intros Hsub Hs. induction Hs as [|y s Hs IH Hy]; simpl.
  - repeat constructor.
  - rewrite Forall_forall in Hy.
    assert (Htail : StronglySorted (stable_le key (x :: l)) (y :: s)).
    { apply (StronglySorted_weaken (stable_le key l)); [|by constructor;
        [|apply Forall_forall]].
      intros a b. apply stable_le_cons. }
    destruct (key3_leb (key x) (key y)) eqn:Hxy.
    + constructor; [done|]. apply Forall_forall. intros z Hz. split.
      * apply elem_of_cons in Hz as [->|Hz]; [done|].
        apply (key_le_trans x y z); [done|]. by apply Hy.
      * intros _. apply precedes_head. right. by apply Hsub.
    + constructor.
      * apply IH. intros z Hz. apply Hsub. by right.
      * apply Forall_forall. intros z Hz.
        rewrite sorted_insert_perm in Hz. apply elem_of_cons in Hz as [->|Hz].
        -- split.
           ++ destruct (key_le_total y x) as [H|H]; [done|].
              unfold key_le in H. congruence.
           ++ intros H. unfold key_le in H. congruence.
        -- apply stable_le_cons. by apply Hy.
Qed.

(** [sorted] is a stable sort. *)
Lemma sorted_stable (l : list A) : StronglySorted (stable_le key l) (sorted key l).
Proof.
  induction l as [|x l IH]; simpl; [constructor|].
  apply sorted_insert_stable; [|done]. intros z. by rewrite sorted_perm.
Qed.

(** Elements with equal keys come out of [sorted] in the order they went
    in. *)
Lemma sorted_precedes (l : list A) (a b : A) :
  precedes (sorted key l) a b -> key_le key b a -> precedes l a b.
Proof.
  intros (i & j & Hi & Hj & Hij) Hba.
  destruct (decide (i = j)) as [->|Hne].
  - assert (a = b) as -> by congruence.
    apply precedes_elem. rewrite <- sorted_perm. by eapply list_elem_of_lookup_2.
  - destruct (StronglySorted_lookup _ _ i j a b (sorted_stable l) Hi Hj)
      as [_ H]; [lia|]. by apply H.
Qed.

(** A rearrangement of a list without repetition that is in the order of a
    stable sort is the sorted list. *)
Lemma stable_sort_unique (l s : list A) :
  NoDup l -> s ≡ₚ l -> StronglySorted (stable_le key l) s -> sorted key l = s.
Proof.
  intros Hnodup Hperm Hs.
  apply (StronglySorted_unique_strong (stable_le key l));
    [|apply sorted_stable|done|by rewrite sorted_perm].
  intros x y _ _ [Hxy Hpre] [Hyx Hpre'].
  apply (precedes_antisym l); auto.
Qed.

(** Every list is in the order of its own positions. *)
Lemma StronglySorted_precedes (R : relation A) (l : list A) :
  StronglySorted R l -> StronglySorted (fun a b => R a b /\ precedes l a b) l.
Proof.
  induction 1 as [|x l Hl IH Hx]; constructor.
  - eapply StronglySorted_weaken; [|exact IH].
    intros a b [? ?]. split; [done|]. by apply precedes_cons.
  - rewrite Forall_forall in *. intros y Hy. split; [by apply Hx|].
    apply precedes_head. by right.
Qed.

(** Sorting commutes with filtering. *)
Lemma sorted_insert_filter (P : A -> Prop) `{!forall x, Decision (P x)}
    (x : A) (s : list A) :
  StronglySorted (key_le key) s ->
  filter P (sorted_insert key x s)
  = if decide (P x) then sorted_insert key x (filter P s) else filter P s.
Proof.
  induction 1 as [|y s Hs IH Hy]; simpl.
  - rewrite filter_cons, filter_nil. by destruct (decide (P x)).
  - rewrite Forall_forall in Hy. destruct (key3_leb (key x) (key y)) eqn:Hxy.
    + rewrite filter_cons. destruct (decide (P x)) as [HPx|HPx]; [|done].
      rewrite (filter_cons P y). destruct (decide (P y)) as [HPy|HPy].
      * simpl. by rewrite Hxy.
      * clear IH. induction s as [|z s IHs]; [done|].
        apply StronglySorted_inv in Hs as [Hs Hz].
        rewrite filter_cons. destruct (decide (P z)) as [HPz|HPz].
        -- simpl.
           assert (Hxz : key_le key x z).
           { apply (key_le_trans x y z); [done|]. apply Hy. by left. }
           unfold key_le in Hxz. by rewrite Hxz.
        -- apply IHs; [done|]. intros w Hw. apply Hy. by right.
    + rewrite filter_cons, IH. rewrite (filter_cons P y).
      destruct (decide (P y)) as [HPy|HPy]; destruct (decide (P x)); try done.
      simpl. by rewrite Hxy.
Qed.

Lemma sorted_filter (P : A -> Prop) `{!forall x, Decision (P x)} (l : list A) :
  filter P (sorted key l) = sorted key (filter P l).
Proof.
  induction l as [|x l IH]; [done|].
  simpl. rewrite sorted_insert_filter by apply sorted_StronglySorted.
  rewrite filter_cons. destruct (decide (P x)); [|done]. simpl. by rewrite IH.
Qed.
End SortedFacts.
(** ** Arithmetic of network objects *)

Lemma hostmask_shiftr (n : network) :
  hostmask n = Z.shiftr (ALL_ONES (version n)) (prefixlen n).
Proof.
  unfold hostmask, netmask.
  rewrite Z.lxor_comm, <- Z.lxor_assoc, Z.lxor_nilpotent. apply Z.lxor_0_l.
Qed.

Lemma hostmask_pow2 (n : network) :
  0 <= prefixlen n <= max_prefixlen (version n) ->
  hostmask n = 2 ^ (max_prefixlen (version n) - prefixlen n) - 1.
Proof.
  intros Hp. rewrite hostmask_shiftr, Z.shiftr_div_pow2 by lia.
  unfold ALL_ONES.
  set (m := max_prefixlen (version n)) in *. set (p := prefixlen n) in *.
  assert (Hsplit : 2 ^ m = 2 ^ p * 2 ^ (m - p)).
  { rewrite <- Z.pow_add_r by lia. f_equal. lia. }
  assert (0 < 2 ^ p) by (apply Z.pow_pos_nonneg; lia).
  symmetry. apply Z.div_unique with (r := 2 ^ p - 1); lia.
Qed.

Lemma broadcast_address_add (n : network) :
  wf_network n ->
  broadcast_address n =
  network_address n + (2 ^ (max_prefixlen (version n) - prefixlen n) - 1).
Proof.
  intros (Hp & _ & Hland). unfold broadcast_address.
  rewrite <- Z.lxor_lor by done. rewrite <- Z.add_nocarry_lxor by done.
  by rewrite hostmask_pow2.
Qed.

Lemma address_le_spec (x y : network) :
  address_le x y = true <->
  network_address x < network_address y \/
  (network_address x = network_address y /\ scope_id x = scope_id y).
Proof.
  unfold address_le.
  rewrite orb_true_iff, andb_true_iff, Z.ltb_lt, Z.eqb_eq, bool_decide_eq_true.
  done.
Qed.

Lemma subnet_of_true (a b : network) :
  subnet_of a b = Ok true <->
  version a = version b /\ address_le b a = true /\
  broadcast_address a <= broadcast_address b.
Proof.
  unfold subnet_of. case_bool_decide as Hv.
  - split.
    + intros [= H]. apply andb_true_iff in H as [H1 H2].
      apply negb_true_iff, Z.ltb_ge in H2. done.
    + intros (_ & H1 & H2). f_equal. apply andb_true_iff. split; [done|].
      by apply negb_true_iff, Z.ltb_ge.
  - split; [done|]. by intros [? _].
Qed.

Lemma subnet_of_refl (n : network) : subnet_of n n = Ok true.
Proof.
  apply subnet_of_true. repeat split; [|lia].
  apply address_le_spec. by right.
Qed.

(** The library's test implies containment of the numeric ranges, and is
    the same as it between networks with the same scope id (or none). *)
Lemma subnet_of_range_within (a b : network) :
  subnet_of a b = Ok true -> range_within a b.
Proof.
  intros (Hv & Hle & Hhi)%subnet_of_true. apply address_le_spec in Hle.
  unfold range_within. repeat split; [done|lia|done].
Qed.


(** Same-version networks always compare: [subnet_of] raises only across
    versions. *)
Lemma subnet_of_same_version (a b : network) :
  version a = version b -> subnet_of a b = Ok true \/ subnet_of a b = Ok false.
Proof.
  intros Hv. unfold subnet_of. rewrite bool_decide_eq_true_2 by done.
  destruct (_ && _); auto.
Qed.

(** Containment towards a network that is no shorter in prefix is equality. *)
Lemma subnet_of_prefixlen_le (a b : network) :
  wf_network a -> wf_network b -> prefixlen a <= prefixlen b ->
  subnet_of a b = Ok true -> a = b.
Proof.
  intros Ha Hb Hlen (Hv & Hle & Hhi)%subnet_of_true.
  apply address_le_spec in Hle.
  rewrite !broadcast_address_add in Hhi by done.
  destruct Ha as (Hpa & _ & _), Hb as (Hpb & _ & _).
  destruct a as [va aa pa sa], b as [vb ab pb sb]; simpl in *. subst vb.
  set (m := max_prefixlen va) in *.
  assert (Hmono : 2 ^ (m - pb) <= 2 ^ (m - pa))
    by (apply Z.pow_le_mono_r; lia).
  assert (Hpow : 2 ^ (m - pb) = 2 ^ (m - pa)) by lia.
  apply Z.pow_inj_r in Hpow; [|lia..].
  assert (aa = ab) as -> by lia.
  destruct Hle as [?|[_ ->]]; [lia|]. f_equal; lia.
Qed.

Lemma version_number_inj (v1 v2 : ip_version) :
  version_number v1 = version_number v2 <-> v1 = v2.
Proof. by destruct v1, v2. Qed.

(** The two sort keys hold the same three numbers: networks tie on one key
    exactly when they tie on the other, and then they differ in their scope
    ids at most. *)
Lemma key_by_address_tie (a b : network) :
  key_by_address a = key_by_address b <-> key_by_prefixlen a = key_by_prefixlen b.
Proof.
  unfold key_by_address, key_by_prefixlen. split; intros [= ? ? ?]; congruence.
Qed.

Lemma key_by_prefixlen_tie (a b : network) :
  key_by_prefixlen a = key_by_prefixlen b -> scope_id a = scope_id b -> a = b.
Proof.
  destruct a as [va aa pa sa], b as [vb ab pb sb].
  unfold key_by_prefixlen; simpl. intros [= Hv -> ->] ->.
  apply version_number_inj in Hv as ->. done.
Qed.

(** Sorting twice, by two keys with the same ties, is sorting by the second
    key; sorting a sorted list changes nothing. *)
Lemma sorted_sorted {A : Type} (key1 key2 : A -> key3) (l : list A) :
  NoDup l -> (forall a b, key2 a = key2 b -> key1 a = key1 b) ->
  sorted key2 (sorted key1 l) = sorted key2 l.
Proof.
  intros Hnodup Hties. symmetry. apply stable_sort_unique; [done| |].
  - by rewrite !sorted_perm.
  - eapply StronglySorted_weaken; [|apply sorted_stable].
    intros a b [Hab Hpre]. split; [done|]. intros Hba.
    apply (sorted_precedes key1); [by apply Hpre|].
    apply key_le_refl_eq. symmetry. apply Hties. by apply key_le_tie.
Qed.

Lemma sorted_id {A : Type} (key : A -> key3) (l : list A) :
  NoDup l -> StronglySorted (key_le key) l -> sorted key l = l.
Proof.
  intros Hnodup Hs. apply stable_sort_unique; [done..|].
  eapply StronglySorted_weaken; [|apply (StronglySorted_precedes _ _ Hs)].
  intros a b [Hab Hpre]. by split.
Qed.

(** ** The loops of [dedupe_subnets] *)

(** [b] is not a subnet of [a]: what the loop establishes of every kept
    network [a] and every network [b] kept after it. *)
Local Abbreviation not_under := (fun a b : network => subnet_of b a <> Ok true).

(** In the order of the first sort, and not covered. *)
Local Abbreviation kept_rel :=
  (fun a b : network => key_le key_by_prefixlen a b /\ subnet_of b a <> Ok true).

(** The inner loop never raises, and finds a covering network when there is
    one. *)
Lemma covered_by_cases (net : network) (kept : list network) :
  (covered_by net kept = Ok true /\
   exists k, k ∈ kept /\ subnet_of net k = Ok true) \/
  (covered_by net kept = Ok false /\
   forall k, k ∈ kept -> subnet_of net k <> Ok true).
Proof.
  induction kept as [|k kept IH]; simpl.
  - right. split; [done|]. intros k Hk. by apply elem_of_nil in Hk.
  - assert (Hstep :
      (exists c, (if bool_decide (version_number (version net) = version_number (version k))
                  then subnet_of net k else Ok false) = Ok c /\
                 (c = true <-> subnet_of net k = Ok true))).
    { case_bool_decide as Hv.
      - apply version_number_inj in Hv.
        destruct (subnet_of_same_version net k Hv) as [H|H]; rewrite H.
        + by exists true.
        + exists false. split; [done|]. split; [done|]. by intros [=].
      - exists false. split; [done|]. split; [done|].
        intros (Hv' & _)%subnet_of_true. by rewrite Hv' in Hv. }
    destruct Hstep as (c & -> & Hc). simpl. destruct c.
    + left. split; [done|]. exists k. split; [left|]. by apply Hc.
    + destruct IH as [(-> & k' & Hk' & Hsub)|(-> & Hnone)].
      * left. split; [done|]. exists k'. split; [by right|done].
      * right. split; [done|]. intros k' [->|Hk']%elem_of_cons; [|by apply Hnone].
        intros Hsub. by apply Hc in Hsub.
Qed.

(** The outer loop, started on a sorted remainder with a [kept] list that
    precedes it: it returns, and what it returns extends [kept] by networks
    of the remainder, covers the whole remainder, and keeps the kept list
    ordered and uncovered. *)
Lemma dedupe_loop_inv (l kept : list network) :
  StronglySorted (key_le key_by_prefixlen) l ->
  (forall k n, k ∈ kept -> n ∈ l -> key_le key_by_prefixlen k n) ->
  StronglySorted kept_rel kept ->
  exists out,
    dedupe_loop l kept = Ok out /\
    StronglySorted kept_rel out /\
    (forall x, x ∈ kept -> x ∈ out) /\
    (forall x, x ∈ out -> x ∈ kept \/ x ∈ l) /\
    (forall n, n ∈ l -> exists k, k ∈ out /\ subnet_of n k = Ok true).
Proof.
  revert kept. induction l as [|net rest IH]; intros kept Hl Hbefore Hkept; simpl.
  - exists kept. repeat split; auto.
    intros n Hn. by apply elem_of_nil in Hn.
  - apply StronglySorted_inv in Hl as [Hrest Hnet].
    rewrite Forall_forall in Hnet.
    destruct (covered_by_cases net kept) as [(-> & k & Hk & Hsub)|(-> & Hnone)]; simpl.
    + destruct (IH kept Hrest) as (out & Hout & Hsorted & Hsub1 & Hsub2 & Hcov);
        [|done|].
      { intros k' n Hk' Hn. apply Hbefore; [done|by right]. }
      exists out. repeat split; auto.
      * intros x Hx. destruct (Hsub2 x Hx) as [?|?]; [by left|right; by right].
      * intros n [->|Hn]%elem_of_cons; [|by apply Hcov].
        exists k. split; [by apply Hsub1|done].
    + destruct (IH (kept ++ [net]) Hrest) as (out & Hout & Hsorted & Hsub1 & Hsub2 & Hcov).
      { intros k' n [Hk'| ->%list_elem_of_singleton]%elem_of_app Hn.
        - apply Hbefore; [done|by right].
        - by apply Hnet. }
      { apply StronglySorted_app_2; [|done|repeat constructor].
        intros x1 x2 Hx1 ->%list_elem_of_singleton. split.
        - apply Hbefore; [done|by left].
        - by apply Hnone. }
      exists out. repeat split; auto.
      * intros x Hx. apply Hsub1, elem_of_app. by left.
      * intros x Hx. destruct (Hsub2 x Hx) as [[?| ->%list_elem_of_singleton]%elem_of_app|?].
        -- by left.
        -- right; by left.
        -- right; by right.
      * intros n [->|Hn]%elem_of_cons; [|by apply Hcov].
        exists net. split; [|apply subnet_of_refl].
        apply Hsub1, elem_of_app. right. by apply list_elem_of_singleton.
Qed.

(** On a list in which no network is covered by an earlier one the loop
    keeps everything. *)
Lemma dedupe_loop_fixed (l kept : list network) :
  StronglySorted not_under (kept ++ l) -> dedupe_loop l kept = Ok (kept ++ l).
Proof.
  revert kept. induction l as [|net rest IH]; intros kept Hs; simpl.
  - by rewrite app_nil_r.
  - destruct (covered_by_cases net kept) as [(_ & k & Hk & Hsub)|(-> & _)]; simpl.
    + exfalso.
      apply (StronglySorted_app_1_elem_of _ kept (net :: rest) k net) in Hs;
        [done|done|by left].
    + rewrite IH; rewrite <- (assoc_L (++)); done.
Qed.

(** What [dedupe_subnets] returns, in terms of the list [kept] its loop
    builds. *)
Lemma dedupe_subnets_kept (nets : list network) :
  exists kept,
    dedupe_subnets nets = Ok (sorted key_by_address kept) /\
    dedupe_loop (sorted key_by_prefixlen nets) [] = Ok kept /\
    StronglySorted kept_rel kept /\
    (forall x, x ∈ kept -> x ∈ nets) /\
    (forall n, n ∈ nets -> exists k, k ∈ kept /\ subnet_of n k = Ok true).
Proof.
  destruct (dedupe_loop_inv (sorted key_by_prefixlen nets) [])
    as (kept & Hloop & Hsorted & _ & Hsub & Hcov).
  - apply sorted_StronglySorted.
  - intros k n Hk. by apply elem_of_nil in Hk.
  - constructor.
  - exists kept. unfold dedupe_subnets. rewrite Hloop. simpl.
    repeat split; auto.
    + intros x Hx. destruct (Hsub x Hx) as [H|H]; [by apply elem_of_nil in H|].
      by rewrite sorted_perm in H.
    + intros n Hn. apply Hcov. by rewrite sorted_perm.
Qed.

Lemma key_by_prefixlen_le (a b : network) :
  key_le key_by_prefixlen a b -> version a = version b -> prefixlen a <= prefixlen b.
Proof.
  unfold key_le. rewrite key3_leb_spec. unfold key_by_prefixlen; simpl.
  intros H Hv. rewrite Hv in H. lia.
Qed.

Lemma kept_rel_NoDup (kept : list network) : StronglySorted kept_rel kept -> NoDup kept.
Proof.
  apply StronglySorted_NoDup. intros x [_ Hx]. apply Hx, subnet_of_refl.
Qed.

(** ** The dedup stage *)




(** C2. Coverage is preserved: every kept network is one of the inputs, and
    an address lies in the range of some input network exactly when it lies
    in the range of some kept network. *)
Theorem dedupe_subnets_coverage (nets : list network) :
  exists out,
    dedupe_subnets nets = Ok out /\
    (forall k, k ∈ out -> k ∈ nets) /\
    (forall (v : ip_version) (addr : Z),
       (exists n, n ∈ nets /\ in_range n v addr) <->
       (exists k, k ∈ out /\ in_range k v addr)).
Proof.
  destruct (dedupe_subnets_kept nets) as (kept & Hout & _ & _ & Hsub & Hcov).
  eexists. split; [exact Hout|]. split.
  - intros k Hk. apply Hsub. by rewrite sorted_perm in Hk.
  - intros v addr. split.
    + intros (n & Hn & Hv & Hlo & Hhi).
      destruct (Hcov n Hn) as (k & Hk & (Hvk & Hklo & Hkhi)%subnet_of_range_within).
      exists k. split; [by rewrite sorted_perm|].
      unfold in_range. split; [congruence|lia].
    + intros (k & Hk & Hin). exists k. split; [|done].
      apply Hsub. by rewrite sorted_perm in Hk.
Qed.

(** C3. The dedup stage is idempotent: applied to its own output it returns
    that output, the same networks in the same order. *)
Theorem dedupe_subnets_idempotent (nets : list network) :
  exists out, dedupe_subnets nets = Ok out /\ dedupe_subnets out = Ok out.
Proof.
  destruct (dedupe_subnets_kept nets) as (kept & Hout & _ & Hsorted & _ & _).
  eexists. split; [exact Hout|].
  pose proof (kept_rel_NoDup kept Hsorted) as Hnodup.
  unfold dedupe_subnets at 1.
  rewrite (sorted_sorted key_by_address key_by_prefixlen kept);
    [|done|by intros a b; apply key_by_address_tie].
  rewrite (sorted_id key_by_prefixlen kept);
    [|done|by eapply StronglySorted_weaken; [|exact Hsorted]; intros x y [H _]].
  rewrite (dedupe_loop_fixed kept []); [done|].
  eapply StronglySorted_weaken; [|exact Hsorted]. by intros x y [_ H].
Qed.

(** C10. Exact duplicates are removed too: no network occurs twice in the
    output of [dedupe_subnets], since a network equal to a kept one is a
    subnet of it. *)
Theorem dedupe_subnets_NoDup (nets : list network) :
  exists out, dedupe_subnets nets = Ok out /\ NoDup out.
Proof.
  destruct (dedupe_subnets_kept nets) as (kept & Hout & _ & Hsorted & _ & _).
  eexists. split; [exact Hout|].
  rewrite sorted_perm. by apply kept_rel_NoDup.
Qed.

Example dedupe_spec_example :
  dedupe_subnets [Network IPv4 167772160 8 None; Network IPv4 167837696 16 None;
                  Network IPv4 3232235520 24 None]
  = Ok [Network IPv4 167772160 8 None; Network IPv4 3232235520 24 None].
Proof. vm_compute. reflexivity. Qed.

Example dedupe_duplicates_example :
  dedupe_subnets [Network IPv4 167772160 8 None; Network IPv6 0 64 None;
                  Network IPv4 167772160 8 None]
  = Ok [Network IPv4 167772160 8 None; Network IPv6 0 64 None].
Proof. vm_compute. reflexivity. Qed.

(** Networks that differ in their scope id only tie on both sort keys: both
    are kept, in the order of the input. *)
Example dedupe_scoped_ties_example :
  dedupe_subnets [sample_fe80_64; sample_fe80_eth0_64]
  = Ok [sample_fe80_64; sample_fe80_eth0_64] /\
  dedupe_subnets [sample_fe80_eth0_64; sample_fe80_64]
  = Ok [sample_fe80_eth0_64; sample_fe80_64].
Proof. split; vm_compute; reflexivity. Qed.

(** A scoped network with a greater address is dropped under a kept network
    that contains it. *)
Example dedupe_scoped_dropped_example :
  dedupe_subnets [Network IPv6 338288524927261089672465640915057246208 64 (Some "eth0");
                  sample_fe80_10]
  = Ok [sample_fe80_10].
Proof. vm_compute. reflexivity. Qed.
(** ** The splicer *)

(** A line that is not a section header. *)
Local Abbreviation plain := (fun l : string => startswith "# " l = false).

(** The rest of the file after a section body: nothing, or lines the first
    of which starts with ["# "]. *)
Local Abbreviation headed :=
  (fun after : list string =>
     after = [] \/ exists h t, after = h :: t /\ startswith "# " h = true).

Lemma index_first (x : string) (before rest : list string) :
  x ∉ before -> index x (before ++ x :: rest) = Ok (length before).
Proof.
  induction before as [|l before IH]; simpl; intros Hnotin.
  - by rewrite String.eqb_refl.
  - apply not_elem_of_cons in Hnotin as [Hne Hnotin].
    destruct (String.eqb_spec l x) as [->|_]; [done|].
    by rewrite IH.
Qed.

Lemma index_missing (x : string) (lines : list string) :
  x ∉ lines -> exists msg, index x lines = Raise (ValueError msg).
Proof.
  induction lines as [|l lines IH]; simpl; intros Hnotin; [by eexists|].
  apply not_elem_of_cons in Hnotin as [Hne Hnotin].
  destruct (String.eqb_spec l x) as [->|_]; [done|].
  destruct (IH Hnotin) as [msg ->]. by eexists.
Qed.

(** Any list splits at the first occurrence of an element it contains. *)
Lemma first_occurrence (x : string) (lines : list string) :
  x ∈ lines -> exists before rest, lines = before ++ x :: rest /\ x ∉ before.
Proof.
  induction lines as [|l lines IH]; intros Hin; [by apply elem_of_nil in Hin|].
  destruct (decide (l = x)) as [->|Hne].
  - exists [], lines. split; [done|]. apply not_elem_of_nil.
  - apply elem_of_cons in Hin as [->|Hin]; [done|].
    destruct (IH Hin) as (before & rest & -> & Hnotin).
    exists (l :: before), rest. split; [done|].
    apply not_elem_of_cons. split; [congruence|done].
Qed.

(** Any list splits into its longest run of plain lines and a headed rest. *)
Lemma section_body (rest : list string) :
  exists body after, rest = body ++ after /\ Forall plain body /\ headed after.
Proof.
  induction rest as [|l rest (body & after & -> & Hbody & Hafter)].
  - exists [], []. repeat split; [constructor|by left].
  - destruct (startswith "# " l) eqn:Hl.
    + exists [], (l :: body ++ after). repeat split; [constructor|].
      right. by exists l, (body ++ after).
    + exists (l :: body), after. repeat split; [by constructor|done].
Qed.

(** The [while] loop stops at the end of the section body, given fuel for
    one test more than the body is long. *)
Lemma scan_end_body (body pre after : list string) (fuel : nat) :
  Forall plain body -> headed after -> (length body < fuel)%nat ->
  scan_end fuel (pre ++ body ++ after) (length pre) = (length pre + length body)%nat.
Proof.
  intros Hbody Hafter. revert pre fuel.
  induction Hbody as [|b body Hb Hbody IH]; intros pre fuel Hfuel;
    (destruct fuel as [|fuel]; [simpl in Hfuel; lia|]); simpl.
  - rewrite Nat.add_0_r.
    destruct Hafter as [->|(h & t & -> & Hh)].
    + rewrite app_nil_r, lookup_ge_None_2 by done. done.
    + rewrite list_lookup_middle by done. by rewrite Hh.
  - rewrite list_lookup_middle by done. rewrite Hb. simpl.
    replace (pre ++ b :: body ++ after) with ((pre ++ [b]) ++ body ++ after)
      by (by rewrite <- (assoc_L (++))).
    replace (S (length pre)) with (length (pre ++ [b]))
      by (rewrite length_app; simpl; lia).
    rewrite IH by (simpl in Hfuel; lia).
    rewrite length_app. simpl. lia.
Qed.

(** [replace_section] computed on a file cut at the header and at the end of
    its section. *)
Lemma replace_section_split (before body after : list string)
    (header : string) (new_block : list string) :
  ("# " +:+ header) ∉ before -> Forall plain body -> headed after ->
  replace_section (before ++ ("# " +:+ header) :: body ++ after) header new_block
  = Ok (before ++ ("# " +:+ header) :: new_block ++ EmptyString :: after).
Proof.
  intros Hnotin Hbody Hafter. unfold replace_section.
  rewrite index_first by done. simpl.
  set (hl := "# " +:+ header).
  replace (before ++ hl :: body ++ after) with ((before ++ [hl]) ++ body ++ after)
    by (by rewrite <- (assoc_L (++))).
  replace (length before + 1)%nat with (length (before ++ [hl]))
    by (rewrite length_app; simpl; lia).
  rewrite scan_end_body; [|done|done|rewrite !length_app; simpl; lia].
  rewrite take_app_length.
  rewrite (assoc_L (++) (before ++ [hl]) body after).
  rewrite <- length_app, drop_app_length.
  rewrite <- !(assoc_L (++)). done.
Qed.

(** C5. When the line ["# " ++ header] occurs in the file, the file is cut in
    three around the first such line: the lines up to and including it, the
    section body (plain lines), and the rest, which is empty or begins with
    the next line starting with ["# "].  [replace_section] returns the first
    and the last part as they are and, between them, the new block followed
    by one blank line. *)
Theorem replace_section_frame (lines : list string) (header : string)
    (new_block : list string) :
  ("# " +:+ header) ∈ lines ->
  exists before body after,
    lines = before ++ ("# " +:+ header) :: body ++ after /\
    (("# " +:+ header) ∉ before) /\
    Forall (fun l => startswith "# " l = false) body /\
    (after = [] \/ exists h t, after = h :: t /\ startswith "# " h = true) /\
    replace_section lines header new_block
    = Ok (before ++ ("# " +:+ header) :: new_block ++ [EmptyString] ++ after).
Proof.
  intros (before & rest & -> & Hnotin)%first_occurrence.
  destruct (section_body rest) as (body & after & -> & Hbody & Hafter).
  exists before, body, after. repeat split; try done.
  by apply replace_section_split.
Qed.

Lemma replace_section_frame_witness :
  ("# " +:+ "Foo") ∈ ["# Foo"; "old,line"; "# Bar"; "IP-CIDR,10.0.0.0/8,no-resolve"] /\
  exists before body after,
    ["# Foo"; "old,line"; "# Bar"; "IP-CIDR,10.0.0.0/8,no-resolve"]
    = before ++ ("# " +:+ "Foo") :: body ++ after /\
    (("# " +:+ "Foo") ∉ before) /\
    Forall (fun l => startswith "# " l = false) body /\
    (after = [] \/ exists h t, after = h :: t /\ startswith "# " h = true) /\
    replace_section ["# Foo"; "old,line"; "# Bar"; "IP-CIDR,10.0.0.0/8,no-resolve"]
      "Foo" ["new,line"]
    = Ok (before ++ ("# " +:+ "Foo") :: ["new,line"] ++ [EmptyString] ++ after).
Proof.
  assert (Hin : ("# " +:+ "Foo")
                ∈ ["# Foo"; "old,line"; "# Bar"; "IP-CIDR,10.0.0.0/8,no-resolve"])
    by (simpl; left).
  split; [exact Hin|].
  exact (replace_section_frame _ "Foo" ["new,line"] Hin).
Defined.

Example replace_section_spec_example :
  replace_section ["# Foo"; "old,line"; "# Bar"; "x"] "Foo" ["new,line"]
  = Ok ["# Foo"; "new,line"; EmptyString; "# Bar"; "x"].
Proof. reflexivity. Qed.

Example replace_section_missing_example :
  replace_section ["# Foo"; "old,line"; "# Bar"; "x"] "Baz" ["new,line"]
  = Raise (SystemExit "Missing section header: # Baz").
Proof. reflexivity. Qed.

Lemma header_line_startswith (header : string) :
  startswith "# " ("# " +:+ header) = true.
Proof. unfold startswith. simpl. by destruct header. Qed.

Lemma header_line_inj (h1 h2 : string) : "# " +:+ h1 = "# " +:+ h2 -> h1 = h2.
Proof. simpl. by intros [=]. Qed.

Lemma header_not_in_plain (header : string) (ls : list string) :
  Forall plain ls -> ("# " +:+ header) ∉ ls.
Proof.
  rewrite Forall_forall. intros Hplain Hin.
  apply Hplain in Hin. by rewrite header_line_startswith in Hin.
Qed.

Lemma headed_app_header (m rest : list string) (header : string) :
  headed m -> headed (m ++ ("# " +:+ header) :: rest).
Proof.
  intros [->|(h & t & -> & Hh)]; right.
  - eexists _, _. split; [done|]. apply header_line_startswith.
  - by exists h, (t ++ ("# " +:+ header) :: rest).
Qed.

(** Both orders of replacing two sections, on a file cut at the two headers
    and at the ends of the two section bodies. *)
Lemma replace_two_sections (p bX m bY after : list string) (X Y : string)
    (blkX blkY : list string) :
  X <> Y ->
  ("# " +:+ X) ∉ p -> ("# " +:+ Y) ∉ p -> Forall plain bX ->
  ("# " +:+ Y) ∉ m -> headed m -> Forall plain bY -> headed after ->
  Forall plain blkX ->
  let lines := p ++ ("# " +:+ X) :: bX ++ m ++ ("# " +:+ Y) :: bY ++ after in
  let out := p ++ ("# " +:+ X) :: blkX ++ EmptyString :: m
               ++ ("# " +:+ Y) :: blkY ++ EmptyString :: after in
  (lines' ← replace_section lines X blkX; replace_section lines' Y blkY) = Ok out /\
  (lines' ← replace_section lines Y blkY; replace_section lines' X blkX) = Ok out.
Proof.
  intros Hne HXp HYp HbX HYm Hm HbY Hafter HblkX lines out. subst lines out.
  assert (HYX : "# " +:+ Y <> "# " +:+ X).
  { intros H%header_line_inj. by apply Hne. }
  split.
  - rewrite replace_section_split; [|done|done|by apply headed_app_header].
    simpl.
    replace (p ++ ("# " +:+ X) :: blkX ++ EmptyString :: m ++ ("# " +:+ Y) :: bY ++ after)
      with ((p ++ ("# " +:+ X) :: blkX ++ EmptyString :: m) ++ ("# " +:+ Y) :: bY ++ after)
      by (by rewrite <- !(assoc_L (++)); simpl; rewrite <- !(assoc_L (++))).
    rewrite replace_section_split; [|..|done|done].
    + rewrite <- !(assoc_L (++)); simpl. by rewrite <- !(assoc_L (++)).
    + rewrite !not_elem_of_app, !not_elem_of_cons, !not_elem_of_app, !not_elem_of_cons.
      repeat split; try done.
      by apply header_not_in_plain.
  - replace (p ++ ("# " +:+ X) :: bX ++ m ++ ("# " +:+ Y) :: bY ++ after)
      with ((p ++ ("# " +:+ X) :: bX ++ m) ++ ("# " +:+ Y) :: bY ++ after)
      by (by rewrite <- !(assoc_L (++)); simpl; rewrite <- !(assoc_L (++))).
    rewrite replace_section_split; [|..|done|done].
    + simpl. rewrite <- !(assoc_L (++)); simpl. rewrite <- !(assoc_L (++)).
      rewrite replace_section_split; [done|done|done|by apply headed_app_header].
    + rewrite !not_elem_of_app, !not_elem_of_cons, !not_elem_of_app.
      repeat split; try done.
      by apply header_not_in_plain.
Qed.

(** The same, for a file in which the header of [X] comes first. *)
Lemma replace_commute_first (p rest : list string) (X Y : string)
    (blkX blkY : list string) :
  X <> Y ->
  ("# " +:+ X) ∉ p -> ("# " +:+ Y) ∉ p -> ("# " +:+ Y) ∈ rest ->
  Forall plain blkX ->
  exists out,
    (lines' ← replace_section (p ++ ("# " +:+ X) :: rest) X blkX;
     replace_section lines' Y blkY) = Ok out /\
    (lines' ← replace_section (p ++ ("# " +:+ X) :: rest) Y blkY;
     replace_section lines' X blkX) = Ok out.
Proof.
  intros Hne HXp HYp HYrest HblkX.
  destruct (section_body rest) as (bX & afterX & -> & HbX & HafterX).
  apply elem_of_app in HYrest as [HY|HY]; [by apply header_not_in_plain in HY|].
  destruct (first_occurrence _ _ HY) as (m & rest2 & -> & HYm).
  destruct (section_body rest2) as (bY & after & -> & HbY & Hafter).
  eexists. apply replace_two_sections; try done.
  destruct HafterX as [Hnil|(h & t & Heq & Hh)].
  - by destruct m.
  - destruct m as [|h' m]; [by left|]. right.
    simpl in Heq. injection Heq as -> _. by exists h, m.
Qed.

(** C9. Replacing two distinct sections commutes: when the header lines of
    [A] and [B] both occur in the file and neither new block has a line
    starting with ["# "], replacing [A] then [B] and replacing [B] then [A]
    both succeed and give the same lines.  Each replacement works at the
    first occurrence of its header, so the result holds whether or not the
    header lines occur once only. *)
Theorem replace_section_commute (lines : list string) (A B : string)
    (blkA blkB : list string) :
  A <> B ->
  ("# " +:+ A) ∈ lines -> ("# " +:+ B) ∈ lines ->
  Forall (fun l => startswith "# " l = false) blkA ->
  Forall (fun l => startswith "# " l = false) blkB ->
  exists out,
    (lines' ← replace_section lines A blkA; replace_section lines' B blkB) = Ok out /\
    (lines' ← replace_section lines B blkB; replace_section lines' A blkA) = Ok out.
Proof.
  intros Hne HA HB HblkA HblkB.
  assert (HAB : "# " +:+ A <> "# " +:+ B).
  { intros H%header_line_inj. by apply Hne. }
  destruct (first_occurrence _ _ HA) as (p & rest & -> & HAp).
  destruct (decide (("# " +:+ B) ∈ p)) as [HBp|HBp].
  - destruct (first_occurrence _ _ HBp) as (q & r & -> & HBq).
    apply not_elem_of_app in HAp as [HAq HAr].
    rewrite <- (assoc_L (++)). simpl.
    destruct (replace_commute_first q (r ++ ("# " +:+ A) :: rest) B A blkB blkA)
      as (out & H1 & H2); try done.
    + apply elem_of_app. right. by left.
    + by exists out.
  - apply replace_commute_first; try done.
    apply elem_of_app in HB as [HB|HB]; [done|].
    by apply elem_of_cons in HB as [HB|HB].
Qed.

Lemma replace_section_commute_witness :
  "Foo" <> "Bar" /\
  ("# " +:+ "Foo") ∈ ["top"; "# Bar"; "b1"; "# Foo"; "f1"; "f2"; "# Baz"; "z"] /\
  ("# " +:+ "Bar") ∈ ["top"; "# Bar"; "b1"; "# Foo"; "f1"; "f2"; "# Baz"; "z"] /\
  Forall (fun l => startswith "# " l = false) ["IP-CIDR,10.0.0.0/8,no-resolve"] /\
  Forall (fun l => startswith "# " l = false) [] /\
  exists out,
    (lines' ← replace_section ["top"; "# Bar"; "b1"; "# Foo"; "f1"; "f2"; "# Baz"; "z"]
                "Foo" ["IP-CIDR,10.0.0.0/8,no-resolve"];
     replace_section lines' "Bar" []) = Ok out /\
    (lines' ← replace_section ["top"; "# Bar"; "b1"; "# Foo"; "f1"; "f2"; "# Baz"; "z"]
                "Bar" [];
     replace_section lines' "Foo" ["IP-CIDR,10.0.0.0/8,no-resolve"]) = Ok out.
Proof.
  assert (H1 : "Foo" <> "Bar") by discriminate.
  assert (H2 : ("# " +:+ "Foo")
               ∈ ["top"; "# Bar"; "b1"; "# Foo"; "f1"; "f2"; "# Baz"; "z"])
    by (simpl; do 3 right; left).
  assert (H3 : ("# " +:+ "Bar")
               ∈ ["top"; "# Bar"; "b1"; "# Foo"; "f1"; "f2"; "# Baz"; "z"])
    by (simpl; right; left).
  assert (H4 : Forall (fun l => startswith "# " l = false)
                 ["IP-CIDR,10.0.0.0/8,no-resolve"])
    by (repeat constructor).
  assert (H5 : Forall (fun l => startswith "# " l = false) []) by constructor.
  repeat (split; [assumption|]).
  exact (replace_section_commute _ "Foo" "Bar" _ _ H1 H2 H3 H4 H5).
Defined.


(** ** The formatter *)

Lemma startswith_app (p s : string) : startswith p (p +:+ s) = true.
Proof.
  unfold startswith, String.app. induction p as [|c p IH]; simpl.
  - by destruct s.
  - by destruct (Ascii.ascii_dec c c).
Qed.

Lemma endswith_app (t s : string) : endswith t (s +:+ t) = true.
Proof.
  unfold String.app. induction s as [|c s IH]; simpl.
  - destruct t; cbn [endswith]; by rewrite String.eqb_refl.
  - rewrite IH. apply orb_true_r.
Qed.

Lemma endswith_app_r (t p s : string) :
  endswith t s = true -> endswith t (p +:+ s) = true.
Proof.
  intros Hs. unfold String.app. induction p as [|c p IH]; simpl; [done|].
  rewrite IH. apply orb_true_r.
Qed.

Lemma foldl_snoc_fmap {A B : Type} (f : A -> B) (l : list A) (acc : list B) :
  foldl (fun lines x => lines ++ [f x]) acc l = acc ++ (f <$> l).
Proof.
  revert acc. induction l as [|x l IH]; intros acc; simpl.
  - by rewrite app_nil_r.
  - rewrite IH. by rewrite <- (assoc_L (++)).
Qed.

Lemma dedupe_subnets_total (nets : list network) :
  exists out, dedupe_subnets nets = Ok out.
Proof.
  destruct (dedupe_subnets_kept nets) as (kept & Hout & _). eauto.
Qed.

Section ScriptFacts.
Variable urlopen : string -> result string.
Variable json_load : string -> result pyobj.
Variable ip_network : pyobj -> result network.
Variable net_str : network -> string.
Variable splitlines : string -> list string.

Lemma rule_line_format (net : network) :
  (startswith "IP-CIDR," (rule_line net_str net) = true <-> version net = IPv4) /\
  (startswith "IP-CIDR6," (rule_line net_str net) = true <-> version net = IPv6) /\
  endswith ",no-resolve" (rule_line net_str net) = true.
Proof.
  unfold rule_line. destruct net as [[] addr len]; cbn [version version_number].
  - rewrite bool_decide_eq_true_2 by done. split; [|split].
    + split; [done|]. intros _. apply startswith_app.
    + split; [|done]. vm_compute. by intros [=].
    + by apply endswith_app_r, endswith_app.
  - rewrite bool_decide_eq_false_2 by done. split; [|split].
    + split; [|done]. vm_compute. by intros [=].
    + split; [done|]. intros _. apply startswith_app.
    + by apply endswith_app_r, endswith_app.
Qed.

(** No rule line is a header line, nor any line starting with ["# "]. *)
Lemma rule_line_plain (net : network) : startswith "# " (rule_line net_str net) = false.
Proof.
  unfold rule_line. destruct net as [[] addr len]; cbn [version version_number].
  - rewrite bool_decide_eq_true_2 by done. reflexivity.
  - rewrite bool_decide_eq_false_2 by done. reflexivity.
Qed.

(** [build_lines] returns exactly when every prefix parses, and then returns
    one rule line per kept network, in the order of the dedup stage. *)
Lemma build_lines_Ok (prefixes : list pyobj) (lines : list string) :
  build_lines ip_network net_str prefixes = Ok lines <->
  exists nets deduped,
    mapM ip_network prefixes = Ok nets /\
    dedupe_subnets nets = Ok deduped /\
    lines = rule_line net_str <$> deduped.
Proof.
  unfold build_lines. split.
  - destruct (mapM ip_network prefixes) as [nets|e]; simpl; [|done].
    destruct (dedupe_subnets nets) as [deduped|e] eqn:Hd; simpl; [|done].
    rewrite foldl_snoc_fmap. intros [= <-]. by exists nets, deduped.
  - intros (nets & deduped & -> & Hd & ->). simpl. rewrite Hd. simpl.
    by rewrite foldl_snoc_fmap.
Qed.

(** C4. When every prefix is a valid CIDR ([ip_network] accepts each one),
    [build_lines] returns one line per kept network; the line of an IPv4
    network, and only it, starts with [IP-CIDR,]; the line of an IPv6 network,
    and only it, starts with [IP-CIDR6,]; every line ends with
    [,no-resolve]. *)
Theorem build_lines_format (prefixes : list pyobj) (nets : list network) :
  mapM ip_network prefixes = Ok nets ->
  exists deduped lines,
    dedupe_subnets nets = Ok deduped /\
    build_lines ip_network net_str prefixes = Ok lines /\
    Forall2 (fun net line =>
               (startswith "IP-CIDR," line = true <-> version net = IPv4) /\
               (startswith "IP-CIDR6," line = true <-> version net = IPv6) /\
               endswith ",no-resolve" line = true)
            deduped lines.
Proof.
  intros Hnets. destruct (dedupe_subnets_total nets) as [deduped Hd].
  exists deduped, (rule_line net_str <$> deduped). split; [done|]. split.
  - apply build_lines_Ok. by exists nets, deduped.
  - apply Forall2_fmap_r, Forall_Forall2_diag, Forall_forall.
    intros net _. apply rule_line_format.
Qed.

(** ** The fetcher *)

Lemma mapM_get_prefix (entries : list (list (string * pyobj))) :
  mapM (fun p => py_get p "prefix" PyNone) (PyDict <$> entries)
  = Ok ((fun items => default PyNone (dict_lookup "prefix" items)) <$> entries).
Proof.
  induction entries as [|items entries IH]; [done|].
  rewrite !fmap_cons. cbn [mapM py_get]. rewrite IH. done.
Qed.

(** C7 (amended). For a response body that [urlopen] delivers: when
    [json.load] rejects it (invalid JSON) the fetcher raises that error; when
    it decodes to an object without ["data"], or whose ["data"] is an object
    without ["prefixes"], the fetcher returns the empty list; when
    ["prefixes"] is a list of objects the fetcher returns their ["prefix"]
    values in order, leaving out the missing ones ([None]) and the empty
    ones. *)
Theorem fetch_prefixes_body (asn : Z) (body : string) :
  urlopen (RIPESTAT_format asn) = Ok body ->
  (forall e, json_load body = Raise e ->
     fetch_prefixes urlopen json_load asn = Raise e) /\
  (forall top, json_load body = Ok (PyDict top) ->
     dict_lookup "data" top = None ->
     fetch_prefixes urlopen json_load asn = Ok []) /\
  (forall top data, json_load body = Ok (PyDict top) ->
     dict_lookup "data" top = Some (PyDict data) ->
     dict_lookup "prefixes" data = None ->
     fetch_prefixes urlopen json_load asn = Ok []) /\
  (forall top data entries, json_load body = Ok (PyDict top) ->
     dict_lookup "data" top = Some (PyDict data) ->
     dict_lookup "prefixes" data = Some (PyList (PyDict <$> entries)) ->
     exists prefixes,
       fetch_prefixes urlopen json_load asn = Ok prefixes /\
       prefixes = filter (fun p => truthy p = true)
                    ((fun items => default PyNone (dict_lookup "prefix" items))
                       <$> entries) /\
       (PyNone ∉ prefixes) /\ (PyStr EmptyString ∉ prefixes)).
Proof.
  intros Hurl. unfold fetch_prefixes. rewrite Hurl. simpl.
  split; [|split; [|split]].
  - by intros e ->.
  - intros top -> Hdata. simpl. by rewrite Hdata.
  - intros top data -> Hdata Hprefixes. simpl. rewrite Hdata. simpl.
    by rewrite Hprefixes.
  - intros top data entries -> Hdata Hprefixes. simpl. rewrite Hdata. simpl.
    rewrite Hprefixes. simpl. rewrite mapM_get_prefix. simpl.
    eexists. split; [done|]. split; [done|].
    split; intros [Htruthy _]%list_elem_of_filter; discriminate Htruthy.
Qed.

(** ** The run *)

Lemma replace_section_missing (lines : list string) (header : string)
    (new_block : list string) :
  ("# " +:+ header) ∉ lines ->
  replace_section lines header new_block
  = Raise (SystemExit ("Missing section header: " +:+ "# " +:+ header)).
Proof.
  intros Hnotin. unfold replace_section.
  by destruct (index_missing _ _ Hnotin) as [msg ->].
Qed.

(** The only way [replace_section] fails is the [SystemExit] for a missing
    header line. *)
Lemma replace_section_Raise (lines : list string) (header : string)
    (new_block : list string) (e : exn) :
  replace_section lines header new_block = Raise e ->
  (("# " +:+ header) ∉ lines) /\
  e = SystemExit ("Missing section header: " +:+ "# " +:+ header).
Proof.
  intros Hrep.
  destruct (decide (("# " +:+ header) ∈ lines)) as [Hin|Hnotin].
  - destruct (first_occurrence _ _ Hin) as (before & rest & -> & Hbefore).
    destruct (section_body rest) as (body & after & -> & Hbody & Hafter).
    by rewrite replace_section_split in Hrep.
  - rewrite replace_section_missing in Hrep by done. by injection Hrep as <-.
Qed.

(** Every line of the result is a line of the input, a line of the new
    block, or the blank line. *)
Lemma replace_section_elem (lines lines' : list string) (header : string)
    (new_block : list string) (x : string) :
  replace_section lines header new_block = Ok lines' ->
  x ∈ lines' -> x ∈ lines \/ x ∈ new_block \/ x = EmptyString.
Proof.
  intros Hrep Hx.
  destruct (decide (("# " +:+ header) ∈ lines)) as [Hin|Hnotin].
  - destruct (first_occurrence _ _ Hin) as (before & rest & -> & Hbefore).
    destruct (section_body rest) as (body & after & -> & Hbody & Hafter).
    rewrite replace_section_split in Hrep by done. injection Hrep as <-.
    simpl in Hx.
    repeat (rewrite ?elem_of_app, ?elem_of_cons in Hx).
    rewrite !elem_of_app, !elem_of_cons, !elem_of_app.
    destruct Hx as [?|[?|[?|[?|?]]]]; auto.
  - by rewrite replace_section_missing in Hrep.
Qed.

(** A header missing from the lines makes the loop over the sections fail:
    at that section if not before. *)
Lemma update_sections_missing (table : list (string * list Z))
    (lines : list string) (header : string) :
  header ∈ table.*1 -> ("# " +:+ header) ∉ lines ->
  exists e, update_sections urlopen json_load ip_network net_str table lines = Raise e.
Proof.
  revert lines. induction table as [|[h asns] table IH]; intros lines Hin Hnotin.
  - by apply elem_of_nil in Hin.
  - simpl.
    destruct (fetch_all urlopen json_load asns []) as [prefixes|e]; [|by eexists].
    simpl.
    destruct (build_lines ip_network net_str prefixes) as [new_block|e] eqn:Hbuild;
      [|by eexists].
    simpl.
    destruct (replace_section lines h new_block) as [lines'|e] eqn:Hrep;
      [|by eexists].
    simpl. apply IH.
    + simpl in Hin. apply elem_of_cons in Hin as [->|Hin]; [|done].
      by rewrite replace_section_missing in Hrep.
    + intros Hx.
      destruct (replace_section_elem _ _ _ _ _ Hrep Hx) as [?|[Hblk|Hblank]];
        [done| |done].
      apply build_lines_Ok in Hbuild as (nets & deduped & _ & _ & ->).
      apply list_elem_of_fmap in Hblk as (net & Heq & _).
      pose proof (rule_line_plain net) as Hplain.
      by rewrite <- Heq, header_line_startswith in Hplain.
Qed.

Lemma main_unfold (w : world) :
  main urlopen json_load ip_network net_str splitlines w =
  match disk w with
  | None => (Raise (SystemExit ("Missing file: " +:+ FILE_PATH)), w)
  | Some (Unreadable e) => (Raise e, w)
  | Some (TextFile text) =>
      match update_sections urlopen json_load ip_network net_str
              SECTION_ASNS (splitlines text) with
      | Ok lines => write_text (join NL lines +:+ NL) w
      | Raise e => (Raise e, w)
      end
  end.
Proof.
  unfold main, mbind, M_bind, path_exists, read_text, lift.
  destruct (disk w) as [[text|e]|] eqn:Hdisk;
    cbn -[update_sections]; rewrite ?Hdisk; [|done|done].
  by destruct (update_sections _ _ _ _ _ _).
Qed.

(** [main] writes nothing to the error stream and changes nothing but the
    file. *)
Lemma main_stderr (w : world) :
  stderr (main urlopen json_load ip_network net_str splitlines w).2 = stderr w /\
  write_failure (main urlopen json_load ip_network net_str splitlines w).2
  = write_failure w.
Proof.
  rewrite main_unfold.
  destruct (disk w) as [[text|e']|]; [|done..].
  destruct (update_sections _ _ _ _ _ _) as [lines|e']; [|done].
  unfold write_text.
  destruct (write_failure w) as [[e' [partial|]]|] eqn:Hw; simpl; by rewrite ?Hw.
Qed.

(** A run that fails before the write, or at a write that cannot open the
    file, leaves the world as it found it. *)
Lemma main_raise_unchanged (w w' : world) (e : exn) :
  main urlopen json_load ip_network net_str splitlines w = (Raise e, w') ->
  (forall e' partial, write_failure w <> Some (e', Some partial)) -> w' = w.
Proof.
  rewrite main_unfold. intros Hmain Hwrite. revert Hmain.
  destruct (disk w) as [[text|e']|]; [|by intros [= _ <-]..].
  destruct (update_sections _ _ _ _ _ _) as [lines|e']; [|by intros [= _ <-]].
  unfold write_text. destruct (write_failure w) as [[e' [partial|]]|].
  - by destruct (Hwrite e' partial).
  - by intros [= _ <-].
  - done.
Qed.

(** A run that succeeds had a text file to read, went through every section,
    and wrote the joined lines as its last step. *)
Lemma main_Ok_inv (w w' : world) :
  main urlopen json_load ip_network net_str splitlines w = (Ok (), w') ->
  exists text lines,
    disk w = Some (TextFile text) /\
    update_sections urlopen json_load ip_network net_str
      SECTION_ASNS (splitlines text) = Ok lines /\
    disk w' = Some (TextFile (join NL lines +:+ NL)).
Proof.
  rewrite main_unfold.
  destruct (disk w) as [[text|e']|]; [|done..].
  destruct (update_sections _ _ _ _ _ _) as [lines|e'] eqn:Hupd; [|done].
  unfold write_text. destruct (write_failure w) as [[e' [partial|]]|]; [done..|].
  intros [= <-]. by exists text, lines.
Qed.

(** What the guard and the interpreter make of a failed run. *)
Lemma run_script_raise (w w' : world) (e : exn) :
  main urlopen json_load ip_network net_str splitlines w = (Raise e, w') ->
  run_script urlopen json_load ip_network net_str splitlines w =
  (1, World (disk w') (write_failure w')
        (stderr w ++
         if is_Exception e
         then [Line ("update_can_ips.py failed: " +:+ exn_str e); Traceback e]
         else [Line (exn_str e)])).
Proof.
  intros Hmain. pose proof (main_stderr w) as [Hstderr _].
  rewrite Hmain in Hstderr. simpl in Hstderr.
  unfold run_script, guarded_main. rewrite Hmain.
  destruct e; simpl; by rewrite <- ?(assoc_L (++)), Hstderr.
Qed.

(** C6. When the file holds text and the header line of a configured section
    is not among its lines, [main] fails and leaves the world, hence the
    file on disk, as it was (the write is never reached); the process ends
    with a non-zero status and the same file on disk. *)
Theorem main_missing_header (w : world) (text header : string) :
  disk w = Some (TextFile text) ->
  header ∈ SECTION_ASNS.*1 ->
  ("# " +:+ header) ∉ splitlines text ->
  exists e,
    main urlopen json_load ip_network net_str splitlines w = (Raise e, w) /\
    (run_script urlopen json_load ip_network net_str splitlines w).1 <> 0 /\
    disk (run_script urlopen json_load ip_network net_str splitlines w).2 = disk w.
Proof.
  intros Hdisk Hheader Hmissing.
  destruct (update_sections_missing SECTION_ASNS (splitlines text) header)
    as [e He]; [done..|].
  assert (Hmain : main urlopen json_load ip_network net_str splitlines w = (Raise e, w)).
  { by rewrite main_unfold, Hdisk, He. }
  exists e. split; [done|]. by rewrite (run_script_raise w w e Hmain).
Qed.

(** C8 (amended). When [main] fails with an exception [e] the process ends
    with status 1.  If [e] is an [Exception] the guard prints the one-line
    diagnostic [update_can_ips.py failed: <str(e)>] and re-raises [e]; if [e]
    is a [SystemExit] the guard does not intercept it and the only diagnostic
    is the text of the [SystemExit], without the program name.  A missing
    file is reported the second way, and so is a missing section header: the
    only failure of [replace_section] is that [SystemExit]. *)
Theorem run_script_error_report (w w' : world) (e : exn) :
  main urlopen json_load ip_network net_str splitlines w = (Raise e, w') ->
  (run_script urlopen json_load ip_network net_str splitlines w).1 = 1 /\
  disk (run_script urlopen json_load ip_network net_str splitlines w).2 = disk w' /\
  stderr (run_script urlopen json_load ip_network net_str splitlines w).2 =
    stderr w ++
    (if is_Exception e
     then [Line ("update_can_ips.py failed: " +:+ exn_str e); Traceback e]
     else [Line (exn_str e)]) /\
  (disk w = None -> e = SystemExit ("Missing file: " +:+ FILE_PATH)) /\
  (forall lines header new_block e',
     replace_section lines header new_block = Raise e' ->
     e' = SystemExit ("Missing section header: " +:+ "# " +:+ header)).
Proof.
  intros Hmain. rewrite (run_script_raise w w' e Hmain). simpl. repeat split.
  - intros Hdisk. rewrite main_unfold, Hdisk in Hmain. by injection Hmain as <-.
  - intros lines header new_block e' Hrep.
    by apply replace_section_Raise in Hrep as [_ ->].
Qed.
End ScriptFacts.

Lemma build_lines_format_witness :
  mapM sample_ip_network
    [PyStr "2001:db8::/32"; PyStr "10.1.0.0/16"; PyStr "10.0.0.0/8"]
  = Ok [Network IPv6 42540766411282592856903984951653826560 32 None;
        Network IPv4 167837696 16 None; Network IPv4 167772160 8 None] /\
  exists deduped lines,
    dedupe_subnets [Network IPv6 42540766411282592856903984951653826560 32 None;
                    Network IPv4 167837696 16 None; Network IPv4 167772160 8 None]
    = Ok deduped /\
    build_lines sample_ip_network sample_net_str
      [PyStr "2001:db8::/32"; PyStr "10.1.0.0/16"; PyStr "10.0.0.0/8"] = Ok lines /\
    Forall2 (fun net line =>
               (startswith "IP-CIDR," line = true <-> version net = IPv4) /\
               (startswith "IP-CIDR6," line = true <-> version net = IPv6) /\
               endswith ",no-resolve" line = true)
            deduped lines.
Proof.
  assert (H : mapM sample_ip_network
                [PyStr "2001:db8::/32"; PyStr "10.1.0.0/16"; PyStr "10.0.0.0/8"]
              = Ok [Network IPv6 42540766411282592856903984951653826560 32 None;
                    Network IPv4 167837696 16 None; Network IPv4 167772160 8 None])
    by (vm_compute; reflexivity).
  split; [exact H|].
  exact (build_lines_format sample_ip_network sample_net_str _ _ H).
Defined.


Lemma fetch_prefixes_body_witness :
  sample_urlopen (RIPESTAT_format 20365) = Ok body_two_prefixes /\
  (forall e, sample_json_load body_two_prefixes = Raise e ->
     fetch_prefixes sample_urlopen sample_json_load 20365 = Raise e) /\
  (forall top, sample_json_load body_two_prefixes = Ok (PyDict top) ->
     dict_lookup "data" top = None ->
     fetch_prefixes sample_urlopen sample_json_load 20365 = Ok []) /\
  (forall top data, sample_json_load body_two_prefixes = Ok (PyDict top) ->
     dict_lookup "data" top = Some (PyDict data) ->
     dict_lookup "prefixes" data = None ->
     fetch_prefixes sample_urlopen sample_json_load 20365 = Ok []) /\
  (forall top data entries, sample_json_load body_two_prefixes = Ok (PyDict top) ->
     dict_lookup "data" top = Some (PyDict data) ->
     dict_lookup "prefixes" data = Some (PyList (PyDict <$> entries)) ->
     exists prefixes,
       fetch_prefixes sample_urlopen sample_json_load 20365 = Ok prefixes /\
       prefixes = filter (fun p => truthy p = true)
                    ((fun items => default PyNone (dict_lookup "prefix" items))
                       <$> entries) /\
       (PyNone ∉ prefixes) /\ (PyStr EmptyString ∉ prefixes)).
Proof.
  assert (H : sample_urlopen (RIPESTAT_format 20365) = Ok body_two_prefixes)
    by (vm_compute; reflexivity).
  split; [exact H|].
  exact (fetch_prefixes_body sample_urlopen sample_json_load 20365 _ H).
Defined.

(** C7, as stated, fails: a body that is not JSON makes the fetcher raise the
    decoder's [ValueError]; it does not return the empty list. *)
Lemma fetch_prefixes_invalid_json_raises :
  sample_urlopen (RIPESTAT_format 64496) = Ok body_html /\
  sample_json_load body_html
  = Raise (ValueError "Expecting value: line 1 column 1 (char 0)") /\
  fetch_prefixes sample_urlopen sample_json_load 64496
  = Raise (ValueError "Expecting value: line 1 column 1 (char 0)") /\
  fetch_prefixes sample_urlopen sample_json_load 64496 <> Ok [].
Proof.
  assert (H : fetch_prefixes sample_urlopen sample_json_load 64496
              = Raise (ValueError "Expecting value: line 1 column 1 (char 0)"))
    by (vm_compute; reflexivity).
  split; [by vm_compute|]. split; [by vm_compute|]. split; [exact H|].
  by rewrite H.
Qed.

Lemma main_missing_header_witness :
  disk sample_world_no_bell
  = Some (TextFile (join NL
      [ "# Freedom Mobile"; "IP-CIDR,192.0.2.0/24,no-resolve"; EmptyString;
        "# Rogers Communications (Rogers/Fido) (AS812)"; EmptyString;
        "# TELUS Mobility (AS14663)" ] +:+ NL)) /\
  "Bell Mobility (AS36522)" ∈ SECTION_ASNS.*1 /\
  (("# " +:+ "Bell Mobility (AS36522)")
   ∉ sample_splitlines (join NL
      [ "# Freedom Mobile"; "IP-CIDR,192.0.2.0/24,no-resolve"; EmptyString;
        "# Rogers Communications (Rogers/Fido) (AS812)"; EmptyString;
        "# TELUS Mobility (AS14663)" ] +:+ NL)) /\
  exists e,
    main sample_urlopen sample_json_load sample_ip_network sample_net_str
      sample_splitlines sample_world_no_bell = (Raise e, sample_world_no_bell) /\
    (run_script sample_urlopen sample_json_load sample_ip_network sample_net_str
       sample_splitlines sample_world_no_bell).1 <> 0 /\
    disk (run_script sample_urlopen sample_json_load sample_ip_network sample_net_str
            sample_splitlines sample_world_no_bell).2 = disk sample_world_no_bell.
Proof.
  assert (H1 : disk sample_world_no_bell
    = Some (TextFile (join NL
        [ "# Freedom Mobile"; "IP-CIDR,192.0.2.0/24,no-resolve"; EmptyString;
          "# Rogers Communications (Rogers/Fido) (AS812)"; EmptyString;
          "# TELUS Mobility (AS14663)" ] +:+ NL))) by reflexivity.
  assert (H2 : "Bell Mobility (AS36522)" ∈ SECTION_ASNS.*1)
    by (simpl; right; left).
  assert (H3 : ("# " +:+ "Bell Mobility (AS36522)")
    ∉ sample_splitlines (join NL
        [ "# Freedom Mobile"; "IP-CIDR,192.0.2.0/24,no-resolve"; EmptyString;
          "# Rogers Communications (Rogers/Fido) (AS812)"; EmptyString;
          "# TELUS Mobility (AS14663)" ] +:+ NL))
    by (apply (bool_decide_unpack _); vm_compute; exact I).
  repeat (split; [assumption|]).
  exact (main_missing_header sample_urlopen sample_json_load sample_ip_network
           sample_net_str sample_splitlines _ _ _ H1 H2 H3).
Defined.

Lemma run_script_error_report_witness :
  main sample_urlopen sample_json_load sample_ip_network sample_net_str
    sample_splitlines sample_world_unreadable
  = (Raise (OSError "[Errno 13] Permission denied: 'surge/CAN-wifi-calling.list'"),
     sample_world_unreadable) /\
  (run_script sample_urlopen sample_json_load sample_ip_network sample_net_str
     sample_splitlines sample_world_unreadable).1 = 1 /\
  disk (run_script sample_urlopen sample_json_load sample_ip_network sample_net_str
          sample_splitlines sample_world_unreadable).2 = disk sample_world_unreadable /\
  stderr (run_script sample_urlopen sample_json_load sample_ip_network sample_net_str
            sample_splitlines sample_world_unreadable).2 =
    stderr sample_world_unreadable ++
    (if is_Exception (OSError "[Errno 13] Permission denied: 'surge/CAN-wifi-calling.list'")
     then [Line ("update_can_ips.py failed: " +:+
                 exn_str (OSError "[Errno 13] Permission denied: 'surge/CAN-wifi-calling.list'"));
           Traceback (OSError "[Errno 13] Permission denied: 'surge/CAN-wifi-calling.list'")]
     else [Line (exn_str (OSError "[Errno 13] Permission denied: 'surge/CAN-wifi-calling.list'"))]) /\
  (disk sample_world_unreadable = None ->
   OSError "[Errno 13] Permission denied: 'surge/CAN-wifi-calling.list'"
   = SystemExit ("Missing file: " +:+ FILE_PATH)) /\
  (forall lines header new_block e',
     replace_section lines header new_block = Raise e' ->
     e' = SystemExit ("Missing section header: " +:+ "# " +:+ header)).
Proof.
  assert (H : main sample_urlopen sample_json_load sample_ip_network sample_net_str
                sample_splitlines sample_world_unreadable
    = (Raise (OSError "[Errno 13] Permission denied: 'surge/CAN-wifi-calling.list'"),
       sample_world_unreadable)) by reflexivity.
  split; [exact H|].
  exact (run_script_error_report sample_urlopen sample_json_load sample_ip_network
           sample_net_str sample_splitlines _ _ _ H).
Defined.

(** C8, as stated, fails for a missing file and for a missing section header:
    the run ends with status 1, but the only line on the error stream is the
    text of the [SystemExit]; no line carries the program name. *)
Lemma run_script_SystemExit_not_prefixed :
  run_script sample_urlopen sample_json_load sample_ip_network sample_net_str
    sample_splitlines sample_world_no_file
  = (1, World None None [Line "Missing file: surge/CAN-wifi-calling.list"]) /\
  run_script sample_urlopen sample_json_load sample_ip_network sample_net_str
    sample_splitlines sample_world_no_bell
  = (1, World (disk sample_world_no_bell) None
          [Line "Missing section header: # Bell Mobility (AS36522)"]) /\
  (forall s, Line s ∈ stderr (run_script sample_urlopen sample_json_load
                                sample_ip_network sample_net_str sample_splitlines
                                sample_world_no_file).2 ->
             startswith "update_can_ips.py" s = false) /\
  (forall s, Line s ∈ stderr (run_script sample_urlopen sample_json_load
                                sample_ip_network sample_net_str sample_splitlines
                                sample_world_no_bell).2 ->
             startswith "update_can_ips.py" s = false).
Proof.
  assert (H1 : run_script sample_urlopen sample_json_load sample_ip_network
                 sample_net_str sample_splitlines sample_world_no_file
    = (1, World None None [Line "Missing file: surge/CAN-wifi-calling.list"]))
    by (vm_compute; reflexivity).
  assert (H2 : run_script sample_urlopen sample_json_load sample_ip_network
                 sample_net_str sample_splitlines sample_world_no_bell
    = (1, World (disk sample_world_no_bell) None
            [Line "Missing section header: # Bell Mobility (AS36522)"]))
    by (vm_compute; reflexivity).
  split; [exact H1|]. split; [exact H2|]. rewrite H1, H2. simpl.
  split; intros s [= ->]%list_elem_of_singleton; reflexivity.
Qed.


(** ** Worked runs *)

Example RIPESTAT_format_example :
  RIPESTAT_format 20365
  = "https://stat.ripe.net/data/announced-prefixes/data.json?resource=AS20365".
Proof. vm_compute. reflexivity. Qed.

Example fetch_prefixes_no_data_example :
  fetch_prefixes sample_urlopen sample_json_load 36522 = Ok [] /\
  fetch_prefixes sample_urlopen sample_json_load 36273 = Ok [].
Proof. split; vm_compute; reflexivity. Qed.

Example sample_splitlines_example :
  sample_splitlines (join NL sample_file_lines +:+ NL) = sample_file_lines.
Proof. vm_compute. reflexivity. Qed.

Example fetch_prefixes_example :
  fetch_prefixes sample_urlopen sample_json_load 20365
  = Ok [PyStr "10.1.0.0/16"; PyStr "10.0.0.0/8"].
Proof. vm_compute. reflexivity. Qed.

Example build_lines_spec_example :
  build_lines sample_ip_network sample_net_str
    [PyStr "10.0.0.0/8"; PyStr "10.1.0.0/16"; PyStr "192.168.0.0/24"]
  = Ok ["IP-CIDR,10.0.0.0/8,no-resolve"; "IP-CIDR,192.168.0.0/24,no-resolve"].
Proof. vm_compute. reflexivity. Qed.

Example run_script_example :
  run_script sample_urlopen sample_json_load sample_ip_network sample_net_str
    sample_splitlines sample_world
  = (0, World (Some (TextFile (join NL
          [ "# Canada Wi-Fi calling";
            "# Freedom Mobile"; "IP-CIDR,10.0.0.0/8,no-resolve"; EmptyString;
            "# Bell Mobility (AS36522)"; EmptyString;
            "# Rogers Communications (Rogers/Fido) (AS812)";
            "IP-CIDR,192.168.0.0/24,no-resolve"; "IP-CIDR6,2001:db8::/32,no-resolve";
            EmptyString;
            "# TELUS Mobility (AS14663)"; "IP-CIDR,10.0.0.0/8,no-resolve"; EmptyString ]
          +:+ NL))) None []).
Proof. vm_compute. reflexivity. Qed.


(** * Further properties *)

(** ** More on the dedup stage *)

Lemma address_le_trans (a b c : network) :
  address_le a b = true -> address_le b c = true -> address_le a c = true.
Proof.
  rewrite !address_le_spec. intros [?|[? ?]] [?|[? ?]].
  - left. lia.
  - left. lia.
  - left. lia.
  - right. split; congruence.
Qed.

Lemma subnet_of_trans (a b c : network) :
  subnet_of a b = Ok true -> subnet_of b c = Ok true -> subnet_of a c = Ok true.
Proof.
  rewrite !subnet_of_true. intros (? & Hba & ?) (? & Hcb & ?).
  split; [congruence|]. split; [by eapply address_le_trans|lia].
Qed.

(** Two network objects that are subnets of each other are the same
    network. *)
Lemma subnet_of_antisym (a b : network) :
  wf_network a -> wf_network b ->
  subnet_of a b = Ok true -> subnet_of b a = Ok true -> a = b.
Proof.
  intros Ha Hb Hab Hba.
  destruct (Z.le_gt_cases (prefixlen a) (prefixlen b)).
  - by apply subnet_of_prefixlen_le.
  - symmetry. apply subnet_of_prefixlen_le; [done..|lia|done].
Qed.

(** Among the kept networks [subnet_of] is equality. *)
Lemma kept_antichain (kept : list network) (a b : network) :
  Forall wf_network kept -> StronglySorted kept_rel kept ->
  a ∈ kept -> b ∈ kept -> subnet_of a b = Ok true -> a = b.
Proof.
  rewrite Forall_forall. intros Hwf Hsorted Ha Hb Hsub.
  destruct (StronglySorted_related _ kept a b Hsorted Ha Hb) as [?|[[Hle _]|[_ Hno]]];
    [done| |done].
  apply subnet_of_prefixlen_le; auto.
  apply key_by_prefixlen_le; [done|]. by apply subnet_of_true in Hsub as [? _].
Qed.

(** The kept networks are the inputs that are a subnet of no other input. *)
Lemma kept_maximal (nets kept : list network) (k : network) :
  Forall wf_network nets ->
  StronglySorted kept_rel kept ->
  (forall x, x ∈ kept -> x ∈ nets) ->
  (forall n, n ∈ nets -> exists k, k ∈ kept /\ subnet_of n k = Ok true) ->
  k ∈ kept <->
  k ∈ nets /\ forall n, n ∈ nets -> subnet_of k n = Ok true -> n = k.
Proof.
  intros Hwf Hsorted Hsub Hcov.
  assert (Hwfk : Forall wf_network kept).
  { rewrite Forall_forall in *. auto. }
  rewrite Forall_forall in Hwf. split.
  - intros Hk. split; [by apply Hsub|]. intros n Hn Hkn.
    destruct (Hcov n Hn) as (k' & Hk' & Hnk').
    assert (k = k') as <-.
    { apply (kept_antichain kept); [done..|]. by eapply subnet_of_trans. }
    symmetry. apply subnet_of_antisym; auto.
  - intros [Hk Hmax]. destruct (Hcov k Hk) as (k' & Hk' & Hkk').
    by rewrite <- (Hmax k' (Hsub k' Hk') Hkk').
Qed.

(** The first sort does not depend on the order of a list in which no two
    distinct networks have the same version, address and prefix length. *)
Lemma sorted_by_prefixlen_perm (l1 l2 : list network) :
  (forall a b, a ∈ l1 -> b ∈ l1 ->
     key_by_prefixlen a = key_by_prefixlen b -> a = b) ->
  l1 ≡ₚ l2 -> sorted key_by_prefixlen l1 = sorted key_by_prefixlen l2.
Proof.
  intros Hties Hperm. apply sorted_unique_on; [done|apply sorted_StronglySorted|].
  by rewrite sorted_perm.
Qed.

(** Two lists sorted by the address key, with the same elements, none
    repeated, and no two distinct elements with the same key, are the same
    list. *)
Lemma sorted_by_address_ext (l1 l2 : list network) :
  (forall a b, a ∈ l1 -> b ∈ l1 ->
     key_by_address a = key_by_address b -> a = b) ->
  StronglySorted (key_le key_by_address) l1 ->
  StronglySorted (key_le key_by_address) l2 ->
  NoDup l1 -> NoDup l2 -> (forall x, x ∈ l1 <-> x ∈ l2) -> l1 = l2.
Proof.
  intros Hties Hs1 Hs2 Hn1 Hn2 Hext.
  apply (StronglySorted_unique_strong (key_le key_by_address)); [|done..|].
  - intros x y Hx Hy Hxy Hyx. apply Hties; [done|by apply Hext|].
    by apply key_le_tie.
  - by apply NoDup_Permutation.
Qed.

(** The inner loop looks at the kept networks of the candidate's version
    only. *)
Lemma covered_by_filter (net : network) (v : ip_version) (kept : list network) :
  version net = v ->
  covered_by net (filter (fun n => version n = v) kept) = covered_by net kept.
Proof.
  intros Hv. induction kept as [|k kept IH]; [done|].
  rewrite filter_cons. destruct (decide (version k = v)) as [Hk|Hk].
  - cbn [covered_by]. by rewrite IH.
  - cbn [covered_by]. rewrite bool_decide_eq_false_2; [exact IH|].
    intros H%version_number_inj. congruence.
Qed.

(** The outer loop on the networks of one version is the outer loop on all
    of them, restricted to that version. *)
Lemma dedupe_loop_filter (v : ip_version) (l kept out : list network) :
  dedupe_loop l kept = Ok out ->
  dedupe_loop (filter (fun n => version n = v) l)
              (filter (fun n => version n = v) kept)
  = Ok (filter (fun n => version n = v) out).
Proof.
  revert kept. induction l as [|net rest IH]; intros kept.
  - cbn [dedupe_loop]. intros [= <-]. done.
  - cbn [dedupe_loop]. rewrite filter_cons.
    destruct (covered_by_cases net kept) as [[Hc _]|[Hc _]]; rewrite Hc; simpl;
      intros Hout%IH; destruct (decide (version net = v)) as [Hv|Hv].
    + cbn [dedupe_loop]. rewrite (covered_by_filter net v kept Hv), Hc. done.
    + done.
    + cbn [dedupe_loop]. rewrite (covered_by_filter net v kept Hv), Hc. simpl.
      rewrite filter_app, filter_cons, decide_True in Hout by done. done.
    + rewrite filter_app, filter_cons, decide_False, filter_nil, app_nil_r in Hout
        by done. done.
Qed.

(** X1. The output of [dedupe_subnets] is in ascending order of (version,
    numeric address, prefix length) and holds no network twice: of two
    positions the earlier holds the key that is smaller or equal, and the
    two networks differ.  Two kept networks have equal keys when they differ
    in the scope id only. *)
Theorem dedupe_subnets_sorted (nets : list network) :
  exists out,
    dedupe_subnets nets = Ok out /\
    forall (i j : nat) (a b : network),
      out !! i = Some a -> out !! j = Some b -> (i < j)%nat ->
      key3_leb (key_by_address a) (key_by_address b) = true /\ a <> b.
Proof.
  destruct (dedupe_subnets_kept nets) as (kept & Hout & _ & Hsorted & _ & _).
  eexists. split; [exact Hout|]. intros i j a b Hi Hj Hlt. split.
  - apply (StronglySorted_lookup (key_le key_by_address)
             (sorted key_by_address kept) i j a b); [|done..].
    apply sorted_StronglySorted.
  - intros ->.
    assert (Hnodup : NoDup (sorted key_by_address kept)).
    { rewrite sorted_perm. by apply kept_rel_NoDup. }
    pose proof (NoDup_lookup _ _ _ _ Hnodup Hi Hj). lia.
Qed.

(** X2. [dedupe_subnets] does not depend on the order of an input in which
    no two distinct networks have the same version, address and prefix
    length (that is, none differ in the scope id only): two such lists that
    are rearrangements of each other give the same output. *)
Theorem dedupe_subnets_permutation (nets1 nets2 : list network) :
  (forall a b, a ∈ nets1 -> b ∈ nets1 ->
     key_by_prefixlen a = key_by_prefixlen b -> a = b) ->
  nets1 ≡ₚ nets2 -> dedupe_subnets nets1 = dedupe_subnets nets2.
Proof.
  intros Hties Hperm. unfold dedupe_subnets.
  by rewrite (sorted_by_prefixlen_perm nets1 nets2).
Qed.

Lemma dedupe_subnets_permutation_witness :
  (forall a b,
     a ∈ [Network IPv4 167837696 16 None; sample_fe80_eth0_64;
          Network IPv4 167772160 8 None] ->
     b ∈ [Network IPv4 167837696 16 None; sample_fe80_eth0_64;
          Network IPv4 167772160 8 None] ->
     key_by_prefixlen a = key_by_prefixlen b -> a = b) /\
  [Network IPv4 167837696 16 None; sample_fe80_eth0_64; Network IPv4 167772160 8 None]
  ≡ₚ [Network IPv4 167772160 8 None; Network IPv4 167837696 16 None;
      sample_fe80_eth0_64] /\
  dedupe_subnets [Network IPv4 167837696 16 None; sample_fe80_eth0_64;
                  Network IPv4 167772160 8 None]
  = dedupe_subnets [Network IPv4 167772160 8 None; Network IPv4 167837696 16 None;
                    sample_fe80_eth0_64].
Proof.
  assert (H1 : forall a b,
     a ∈ [Network IPv4 167837696 16 None; sample_fe80_eth0_64;
          Network IPv4 167772160 8 None] ->
     b ∈ [Network IPv4 167837696 16 None; sample_fe80_eth0_64;
          Network IPv4 167772160 8 None] ->
     key_by_prefixlen a = key_by_prefixlen b -> a = b).
  { intros a b Ha Hb.
    repeat (apply elem_of_cons in Ha as [->|Ha]);
      repeat (apply elem_of_cons in Hb as [->|Hb]);
      try (by apply elem_of_nil in Ha); try (by apply elem_of_nil in Hb);
      try done; vm_compute; congruence. }
  assert (H2 : [Network IPv4 167837696 16 None; sample_fe80_eth0_64;
                Network IPv4 167772160 8 None]
    ≡ₚ [Network IPv4 167772160 8 None; Network IPv4 167837696 16 None;
        sample_fe80_eth0_64]).
  { etrans; [apply perm_skip, Permutation_swap|apply Permutation_swap]. }
  split; [exact H1|]. split; [exact H2|].
  exact (dedupe_subnets_permutation _ _ H1 H2).
Defined.

(** X3. On network objects the output of [dedupe_subnets] is the set of
    inputs that are maximal for the library's [subnet_of]: a network is kept
    exactly when it is an input and [subnet_of] holds from it to no other
    input.  For two networks with the same scope id [subnet_of] is
    containment of the address ranges; it never holds from a network to one
    with the same address and another scope id. *)
Theorem dedupe_subnets_maximal (nets : list network) :
  Forall wf_network nets ->
  exists out,
    dedupe_subnets nets = Ok out /\
    forall k, k ∈ out <->
      k ∈ nets /\ forall n, n ∈ nets -> subnet_of k n = Ok true -> n = k.
Proof.
  intros Hwf.
  destruct (dedupe_subnets_kept nets) as (kept & Hout & _ & Hsorted & Hsub & Hcov).
  eexists. split; [exact Hout|]. intros k.
  rewrite sorted_perm. by apply kept_maximal.
Qed.

Lemma dedupe_subnets_maximal_witness :
  Forall wf_network [Network IPv4 167837696 16 None; sample_fe80_eth0_64;
                     Network IPv4 167772160 8 None; sample_fe80_10;
                     Network IPv4 167837696 16 None] /\
  exists out,
    dedupe_subnets [Network IPv4 167837696 16 None; sample_fe80_eth0_64;
                    Network IPv4 167772160 8 None; sample_fe80_10;
                    Network IPv4 167837696 16 None] = Ok out /\
    forall k, k ∈ out <->
      k ∈ [Network IPv4 167837696 16 None; sample_fe80_eth0_64;
           Network IPv4 167772160 8 None; sample_fe80_10;
           Network IPv4 167837696 16 None] /\
      forall n, n ∈ [Network IPv4 167837696 16 None; sample_fe80_eth0_64;
                     Network IPv4 167772160 8 None; sample_fe80_10;
                     Network IPv4 167837696 16 None] ->
                subnet_of k n = Ok true -> n = k.
Proof.
  assert (Hwf : Forall wf_network
                  [Network IPv4 167837696 16 None; sample_fe80_eth0_64;
                   Network IPv4 167772160 8 None; sample_fe80_10;
                   Network IPv4 167837696 16 None]).
  { repeat constructor; vm_compute; congruence. }
  split; [exact Hwf|]. exact (dedupe_subnets_maximal _ Hwf).
Defined.

(** X4. A list of pairwise distinct networks none of which is a subnet of
    another is returned whole: [dedupe_subnets] only sorts it by (version,
    address, prefix length). *)
Theorem dedupe_subnets_keeps_antichain (nets : list network) :
  NoDup nets ->
  (forall a b, a ∈ nets -> b ∈ nets -> a <> b -> subnet_of a b <> Ok true) ->
  dedupe_subnets nets = Ok (sorted key_by_address nets).
Proof.
  intros Hnodup Hanti. unfold dedupe_subnets.
  rewrite (dedupe_loop_fixed (sorted key_by_prefixlen nets) []).
  - simpl. f_equal. apply sorted_sorted; [done|].
    intros a b. apply key_by_address_tie.
  - simpl. apply StronglySorted_pairwise.
    + by rewrite sorted_perm.
    + intros a b Ha Hb Hab. rewrite sorted_perm in Ha, Hb.
      apply Hanti; [done..|]. by intros ->.
Qed.

Lemma dedupe_subnets_keeps_antichain_witness :
  NoDup [Network IPv4 3232235520 24 None; Network IPv6 0 0 None; Network IPv4 167772160 8 None] /\
  (forall a b,
     a ∈ [Network IPv4 3232235520 24 None; Network IPv6 0 0 None; Network IPv4 167772160 8 None] ->
     b ∈ [Network IPv4 3232235520 24 None; Network IPv6 0 0 None; Network IPv4 167772160 8 None] ->
     a <> b -> subnet_of a b <> Ok true) /\
  dedupe_subnets [Network IPv4 3232235520 24 None; Network IPv6 0 0 None; Network IPv4 167772160 8 None]
  = Ok (sorted key_by_address
          [Network IPv4 3232235520 24 None; Network IPv6 0 0 None; Network IPv4 167772160 8 None]).
Proof.
  assert (H1 : NoDup [Network IPv4 3232235520 24 None; Network IPv6 0 0 None;
                      Network IPv4 167772160 8 None]).
  { apply (bool_decide_unpack _). vm_compute. exact I. }
  assert (H2 : forall a b,
     a ∈ [Network IPv4 3232235520 24 None; Network IPv6 0 0 None; Network IPv4 167772160 8 None] ->
     b ∈ [Network IPv4 3232235520 24 None; Network IPv6 0 0 None; Network IPv4 167772160 8 None] ->
     a <> b -> subnet_of a b <> Ok true).
  { intros a b Ha Hb Hab.
    repeat (apply elem_of_cons in Ha as [->|Ha]);
      repeat (apply elem_of_cons in Hb as [->|Hb]);
      try (by apply elem_of_nil in Ha); try (by apply elem_of_nil in Hb);
      try done; vm_compute; congruence. }
  split; [exact H1|]. split; [exact H2|].
  exact (dedupe_subnets_keeps_antichain _ H1 H2).
Defined.

(** X5. On network objects of which no two distinct ones have the same
    version, address and prefix length (none differ in the scope id only),
    the output of [dedupe_subnets] depends on the set of inputs only: two
    input lists with the same members, in any order and with any
    repetitions, give the same output. *)
Theorem dedupe_subnets_set (nets1 nets2 : list network) :
  Forall wf_network nets1 ->
  (forall a b, a ∈ nets1 -> b ∈ nets1 ->
     key_by_prefixlen a = key_by_prefixlen b -> a = b) ->
  (forall n, n ∈ nets1 <-> n ∈ nets2) ->
  dedupe_subnets nets1 = dedupe_subnets nets2.
Proof.
  intros Hwf1 Hties Hext.
  assert (Hwf2 : Forall wf_network nets2).
  { rewrite Forall_forall in *. intros n Hn. by apply Hwf1, Hext. }
  destruct (dedupe_subnets_kept nets1) as (k1 & -> & _ & Hs1 & Hsub1 & Hcov1).
  destruct (dedupe_subnets_kept nets2) as (k2 & -> & _ & Hs2 & Hsub2 & Hcov2).
  f_equal. apply sorted_by_address_ext.
  - intros a b Ha Hb Hkey. rewrite sorted_perm in Ha, Hb.
    apply Hties; [by apply Hsub1..|]. by apply key_by_address_tie.
  - apply sorted_StronglySorted.
  - apply sorted_StronglySorted.
  - rewrite sorted_perm. by apply kept_rel_NoDup.
  - rewrite sorted_perm. by apply kept_rel_NoDup.
  - intros k. rewrite !sorted_perm.
    rewrite (kept_maximal nets1 k1 k), (kept_maximal nets2 k2 k) by done.
    split; intros [Hk Hmax]; (split; [by apply Hext|]);
      intros n Hn; apply Hmax; by apply Hext.
Qed.

Lemma dedupe_subnets_set_witness :
  Forall wf_network [Network IPv4 167837696 16 None; sample_fe80_eth0_64;
                     Network IPv4 167772160 8 None;
                     Network IPv4 167837696 16 None] /\
  (forall a b,
     a ∈ [Network IPv4 167837696 16 None; sample_fe80_eth0_64;
          Network IPv4 167772160 8 None; Network IPv4 167837696 16 None] ->
     b ∈ [Network IPv4 167837696 16 None; sample_fe80_eth0_64;
          Network IPv4 167772160 8 None; Network IPv4 167837696 16 None] ->
     key_by_prefixlen a = key_by_prefixlen b -> a = b) /\
  (forall n,
     n ∈ [Network IPv4 167837696 16 None; sample_fe80_eth0_64;
          Network IPv4 167772160 8 None; Network IPv4 167837696 16 None]
     <-> n ∈ [Network IPv4 167772160 8 None; Network IPv4 167837696 16 None;
              sample_fe80_eth0_64]) /\
  dedupe_subnets [Network IPv4 167837696 16 None; sample_fe80_eth0_64;
                  Network IPv4 167772160 8 None; Network IPv4 167837696 16 None]
  = dedupe_subnets [Network IPv4 167772160 8 None; Network IPv4 167837696 16 None;
                    sample_fe80_eth0_64].
Proof.
  assert (H1 : Forall wf_network
                 [Network IPv4 167837696 16 None; sample_fe80_eth0_64;
                  Network IPv4 167772160 8 None; Network IPv4 167837696 16 None]).
  { repeat constructor; vm_compute; congruence. }
  assert (H2 : forall a b,
     a ∈ [Network IPv4 167837696 16 None; sample_fe80_eth0_64;
          Network IPv4 167772160 8 None; Network IPv4 167837696 16 None] ->
     b ∈ [Network IPv4 167837696 16 None; sample_fe80_eth0_64;
          Network IPv4 167772160 8 None; Network IPv4 167837696 16 None] ->
     key_by_prefixlen a = key_by_prefixlen b -> a = b).
  { intros a b Ha Hb.
    repeat (apply elem_of_cons in Ha as [->|Ha]);
      repeat (apply elem_of_cons in Hb as [->|Hb]);
      try (by apply elem_of_nil in Ha); try (by apply elem_of_nil in Hb);
      try done; vm_compute; congruence. }
  assert (H3 : forall n,
     n ∈ [Network IPv4 167837696 16 None; sample_fe80_eth0_64;
          Network IPv4 167772160 8 None; Network IPv4 167837696 16 None]
     <-> n ∈ [Network IPv4 167772160 8 None; Network IPv4 167837696 16 None;
              sample_fe80_eth0_64]).
  { intros n. rewrite !elem_of_cons, !elem_of_nil. tauto. }
  split; [exact H1|]. split; [exact H2|]. split; [exact H3|].
  exact (dedupe_subnets_set _ _ H1 H2 H3).
Defined.

(** X6. The two IP versions are deduplicated independently: on network
    objects, deduplicating the networks of one version alone gives the
    networks of that version in the output for the whole list. *)
Theorem dedupe_subnets_by_version (nets : list network) (v : ip_version) :
  Forall wf_network nets ->
  exists out,
    dedupe_subnets nets = Ok out /\
    dedupe_subnets (filter (fun n => version n = v) nets)
    = Ok (filter (fun n => version n = v) out).
Proof.
  intros _.
  destruct (dedupe_subnets_kept nets) as (kept & Hout & Hloop & _).
  eexists. split; [exact Hout|]. unfold dedupe_subnets.
  rewrite <- (sorted_filter key_by_prefixlen (fun n => version n = v) nets).
  pose proof (dedupe_loop_filter v _ [] kept Hloop) as Hf.
  rewrite filter_nil in Hf. rewrite Hf. simpl.
  by rewrite sorted_filter.
Qed.

Lemma dedupe_subnets_by_version_witness :
  Forall wf_network [Network IPv4 167837696 16 None; Network IPv6 0 0 None;
                     Network IPv4 167772160 8 None] /\
  exists out,
    dedupe_subnets [Network IPv4 167837696 16 None; Network IPv6 0 0 None;
                    Network IPv4 167772160 8 None] = Ok out /\
    dedupe_subnets (filter (fun n => version n = IPv4)
                      [Network IPv4 167837696 16 None; Network IPv6 0 0 None;
                       Network IPv4 167772160 8 None])
    = Ok (filter (fun n => version n = IPv4) out).
Proof.
  assert (Hwf : Forall wf_network [Network IPv4 167837696 16 None; Network IPv6 0 0 None;
                                   Network IPv4 167772160 8 None]).
  { repeat constructor; vm_compute; congruence. }
  split; [exact Hwf|]. exact (dedupe_subnets_by_version _ IPv4 Hwf).
Defined.

(** ** More on the splicer *)

Lemma header_lines_plain (ls : list string) : Forall plain ls -> header_lines ls = [].
Proof.
  unfold header_lines. induction 1 as [|l ls Hl Hls IH]; [done|].
  rewrite filter_cons_False; [done|]. by rewrite Hl.
Qed.

(** A successful [replace_section] worked on a file cut in three at the
    first header line. *)
Lemma replace_section_Ok_inv (lines lines' : list string) (header : string)
    (new_block : list string) :
  replace_section lines header new_block = Ok lines' ->
  exists before body after,
    lines = before ++ ("# " +:+ header) :: body ++ after /\
    (("# " +:+ header) ∉ before) /\ Forall plain body /\ headed after /\
    lines' = before ++ ("# " +:+ header) :: new_block ++ EmptyString :: after.
Proof.
  intros Hrep.
  destruct (decide (("# " +:+ header) ∈ lines)) as [Hin|Hnotin].
  - destruct (first_occurrence _ _ Hin) as (before & rest & -> & Hbefore).
    destruct (section_body rest) as (body & after & -> & Hbody & Hafter).
    rewrite replace_section_split in Hrep by done. injection Hrep as <-.
    by exists before, body, after.
  - by rewrite replace_section_missing in Hrep.
Qed.

(** After a replacement with a plain block the file has that section, with
    the block and one blank line as its body. *)
Lemma replace_section_installs (lines lines' : list string) (header : string)
    (new_block : list string) :
  replace_section lines header new_block = Ok lines' ->
  Forall plain new_block ->
  has_section lines' header (new_block ++ [EmptyString]).
Proof.
  intros (before & body & after & _ & Hbefore & _ & Hafter & ->)%replace_section_Ok_inv
    Hblk.
  exists before, after. split; [by rewrite <- (assoc_L (++))|].
  split; [done|]. split; [|done].
  apply Forall_app. split; [done|]. by repeat constructor.
Qed.

(** Replacing a section by the body it already has changes nothing. *)
Lemma replace_section_same (lines : list string) (header : string)
    (new_block : list string) :
  has_section lines header (new_block ++ [EmptyString]) ->
  replace_section lines header new_block = Ok lines.
Proof.
  intros (before & after & -> & Hbefore & Hbody & Hafter).
  rewrite replace_section_split by done. by rewrite <- (assoc_L (++)).
Qed.

(** Replacing one section leaves every other section as it is: its header
    is still the first of its name and its body is untouched. *)
Lemma replace_section_keeps_section (lines lines' : list string)
    (header other : string) (new_block body : list string) :
  has_section lines other body -> other <> header -> Forall plain new_block ->
  replace_section lines header new_block = Ok lines' ->
  has_section lines' other body.
Proof.
  intros (before & after & -> & Hbefore & Hbody & Hafter) Hne Hblk Hrep.
  assert (Hlines : "# " +:+ header <> "# " +:+ other).
  { intros H%header_line_inj. by apply Hne. }
  destruct (decide (("# " +:+ header) ∈ before)) as [Hin|Hnotin].
  - destruct (first_occurrence _ _ Hin) as (p & r & -> & Hp).
    destruct (section_body r) as (bX & aX & -> & HbX & HaX).
    apply not_elem_of_app in Hbefore as [Hop Hbefore].
    apply not_elem_of_cons in Hbefore as [_ Hbefore].
    apply not_elem_of_app in Hbefore as [_ HoaX].
    replace ((p ++ ("# " +:+ header) :: bX ++ aX) ++ ("# " +:+ other) :: body ++ after)
      with (p ++ ("# " +:+ header) :: bX ++ (aX ++ ("# " +:+ other) :: body ++ after))
      in Hrep by (by rewrite <- !(assoc_L (++)); simpl; rewrite <- !(assoc_L (++))).
    rewrite replace_section_split in Hrep;
      [|done|done|by apply headed_app_header].
    injection Hrep as <-.
    exists (p ++ ("# " +:+ header) :: new_block ++ EmptyString :: aX), after.
    split; [by rewrite <- !(assoc_L (++)); simpl; rewrite <- !(assoc_L (++))|].
    split; [|done].
    rewrite !not_elem_of_app, !not_elem_of_cons, !not_elem_of_app, !not_elem_of_cons.
    repeat split; try done. by apply header_not_in_plain.
  - destruct (decide (("# " +:+ header) ∈ after)) as [Hin|Hnotin'].
    + destruct (first_occurrence _ _ Hin) as (m & r & -> & Hm).
      destruct (section_body r) as (bX & aX & -> & HbX & HaX).
      replace (before ++ ("# " +:+ other) :: body
               ++ m ++ ("# " +:+ header) :: bX ++ aX)
        with ((before ++ ("# " +:+ other) :: body ++ m)
              ++ ("# " +:+ header) :: bX ++ aX)
        in Hrep by (by rewrite <- !(assoc_L (++)); simpl; rewrite <- !(assoc_L (++))).
      rewrite replace_section_split in Hrep; [|..|done|done].
      * injection Hrep as <-.
        exists before, (m ++ ("# " +:+ header) :: new_block ++ EmptyString :: aX).
        split; [by rewrite <- !(assoc_L (++)); simpl; rewrite <- !(assoc_L (++))|].
        split; [done|]. split; [done|].
        apply headed_app_header.
        destruct Hafter as [Hnil|(h & t & Heq & Hh)]; [by destruct m|].
        destruct m as [|h' m]; [by left|]. right.
        simpl in Heq. injection Heq as -> _. by exists h, m.
      * rewrite !not_elem_of_app, !not_elem_of_cons, !not_elem_of_app.
        repeat split; try done. by apply header_not_in_plain.
    + rewrite replace_section_missing in Hrep; [done|].
      rewrite !not_elem_of_app, !not_elem_of_cons, !not_elem_of_app.
      repeat split; try done. by apply header_not_in_plain.
Qed.

(** X7. A replacement whose block has no line starting with ["# "] neither
    adds, removes nor reorders header lines: the lines starting with ["# "]
    are the same before and after. *)
Theorem replace_section_header_lines (lines lines' : list string) (header : string)
    (new_block : list string) :
  replace_section lines header new_block = Ok lines' ->
  Forall (fun l => startswith "# " l = false) new_block ->
  header_lines lines' = header_lines lines.
Proof.
  intros (before & body & after & -> & _ & Hbody & _ & ->)%replace_section_Ok_inv Hblk.
  unfold header_lines.
  rewrite !filter_app, !filter_cons, !filter_app, filter_cons.
  fold (header_lines new_block) (header_lines body).
  rewrite (header_lines_plain new_block), (header_lines_plain body) by done.
  by rewrite (decide_False (P := startswith "# " EmptyString = true)).
Qed.

Lemma replace_section_header_lines_witness :
  replace_section ["top"; "# Foo"; "old"; "# Bar"; "x"] "Foo" ["new1"; "new2"]
  = Ok ["top"; "# Foo"; "new1"; "new2"; EmptyString; "# Bar"; "x"] /\
  Forall (fun l => startswith "# " l = false) ["new1"; "new2"] /\
  header_lines ["top"; "# Foo"; "new1"; "new2"; EmptyString; "# Bar"; "x"]
  = header_lines ["top"; "# Foo"; "old"; "# Bar"; "x"].
Proof.
  assert (H1 : replace_section ["top"; "# Foo"; "old"; "# Bar"; "x"] "Foo"
                 ["new1"; "new2"]
               = Ok ["top"; "# Foo"; "new1"; "new2"; EmptyString; "# Bar"; "x"])
    by reflexivity.
  assert (H2 : Forall (fun l => startswith "# " l = false) ["new1"; "new2"])
    by (repeat constructor).
  split; [exact H1|]. split; [exact H2|].
  exact (replace_section_header_lines _ _ _ _ H1 H2).
Defined.

(** X8. The last replacement of a section wins: after a section was replaced
    by a block without ["# "] lines, replacing it again gives what replacing
    it once with the second block gives.  With the same block twice, the
    second replacement changes nothing. *)
Theorem replace_section_again (lines lines1 : list string) (header : string)
    (block1 block2 : list string) :
  replace_section lines header block1 = Ok lines1 ->
  Forall (fun l => startswith "# " l = false) block1 ->
  replace_section lines1 header block2 = replace_section lines header block2 /\
  replace_section lines1 header block1 = Ok lines1.
Proof.
  intros Hrep Hblk. split.
  - apply replace_section_Ok_inv in Hrep
      as (before & body & after & -> & Hbefore & Hbody & Hafter & ->).
    rewrite (replace_section_split before body) by done.
    replace (before ++ ("# " +:+ header) :: block1 ++ EmptyString :: after)
      with (before ++ ("# " +:+ header) :: (block1 ++ [EmptyString]) ++ after)
      by (by rewrite <- (assoc_L (++))).
    apply replace_section_split; [done| |done].
    apply Forall_app. split; [done|]. by repeat constructor.
  - apply replace_section_same. by eapply replace_section_installs.
Qed.

Lemma replace_section_again_witness :
  replace_section ["# Foo"; "old"; EmptyString; "# Bar"; "x"] "Foo" ["a"; "b"]
  = Ok ["# Foo"; "a"; "b"; EmptyString; "# Bar"; "x"] /\
  Forall (fun l => startswith "# " l = false) ["a"; "b"] /\
  replace_section ["# Foo"; "a"; "b"; EmptyString; "# Bar"; "x"] "Foo" ["c"]
  = replace_section ["# Foo"; "old"; EmptyString; "# Bar"; "x"] "Foo" ["c"] /\
  replace_section ["# Foo"; "a"; "b"; EmptyString; "# Bar"; "x"] "Foo" ["a"; "b"]
  = Ok ["# Foo"; "a"; "b"; EmptyString; "# Bar"; "x"].
Proof.
  assert (H1 : replace_section ["# Foo"; "old"; EmptyString; "# Bar"; "x"] "Foo"
                 ["a"; "b"]
               = Ok ["# Foo"; "a"; "b"; EmptyString; "# Bar"; "x"]) by reflexivity.
  assert (H2 : Forall (fun l => startswith "# " l = false) ["a"; "b"])
    by (repeat constructor).
  split; [exact H1|]. split; [exact H2|].
  exact (replace_section_again _ _ "Foo" _ ["c"] H1 H2).
Defined.

(** X9. Replacing one section leaves every other section untouched: a
    section with another header keeps its place as the first of its name and
    keeps its body, line for line. *)
Theorem replace_section_other_untouched (lines lines' : list string)
    (header other : string) (new_block body : list string) :
  has_section lines other body -> other <> header ->
  Forall (fun l => startswith "# " l = false) new_block ->
  replace_section lines header new_block = Ok lines' ->
  has_section lines' other body.
Proof. apply replace_section_keeps_section. Qed.

Lemma replace_section_other_untouched_witness :
  has_section ["# Bar"; "b1"; "b2"; "# Foo"; "old"] "Bar" ["b1"; "b2"] /\
  "Bar" <> "Foo" /\
  Forall (fun l => startswith "# " l = false) ["new"] /\
  replace_section ["# Bar"; "b1"; "b2"; "# Foo"; "old"] "Foo" ["new"]
  = Ok ["# Bar"; "b1"; "b2"; "# Foo"; "new"; EmptyString] /\
  has_section ["# Bar"; "b1"; "b2"; "# Foo"; "new"; EmptyString] "Bar" ["b1"; "b2"].
Proof.
  assert (H1 : has_section ["# Bar"; "b1"; "b2"; "# Foo"; "old"] "Bar" ["b1"; "b2"]).
  { exists [], ["# Foo"; "old"]. split; [done|]. split; [apply not_elem_of_nil|].
    split; [by repeat constructor|]. right. by exists "# Foo", ["old"]. }
  assert (H2 : "Bar" <> "Foo") by discriminate.
  assert (H3 : Forall (fun l => startswith "# " l = false) ["new"])
    by (repeat constructor).
  assert (H4 : replace_section ["# Bar"; "b1"; "b2"; "# Foo"; "old"] "Foo" ["new"]
               = Ok ["# Bar"; "b1"; "b2"; "# Foo"; "new"; EmptyString])
    by reflexivity.
  repeat (split; [assumption|]).
  exact (replace_section_other_untouched _ _ "Foo" "Bar" _ _ H1 H2 H3 H4).
Defined.


(** ** More on the formatter, the fetcher and the run *)

Lemma mapM_result_cons {A B : Type} (f : A -> result B) (x : A) (l : list A)
    (k : list B) :
  mapM f (x :: l) = Ok k <->
  exists y k', f x = Ok y /\ mapM f l = Ok k' /\ k = y :: k'.
Proof.
  cbn [mapM]. split.
  - destruct (f x) as [y|e]; [|done]. simpl.
    destruct (mapM f l) as [k'|e]; [|done]. simpl.
    intros [= <-]. by exists y, k'.
  - intros (y & k' & -> & -> & ->). done.
Qed.

Lemma mapM_result_raise {A B : Type} (f : A -> result B) (good rest : list A)
    (x : A) (ys : list B) (e : exn) :
  mapM f good = Ok ys -> f x = Raise e -> mapM f (good ++ x :: rest) = Raise e.
Proof.
  revert ys. induction good as [|g good IH]; intros ys Hgood Hx.
  - cbn [app mapM]. by rewrite Hx.
  - apply mapM_result_cons in Hgood as (y & k' & Hg & Hk' & _).
    cbn [app mapM]. rewrite Hg. simpl. by rewrite (IH k').
Qed.

Lemma mapM_result_Permutation {A B : Type} (f : A -> result B) (l1 l2 : list A)
    (k1 : list B) :
  l1 ≡ₚ l2 -> mapM f l1 = Ok k1 -> exists k2, mapM f l2 = Ok k2 /\ k1 ≡ₚ k2.
Proof.
  intros Hperm. revert k1.
  induction Hperm as [|x l l' Hperm IH|x y l|l l' l'' H1 IH1 H2 IH2]; intros k1 Hk1.
  - by exists k1.
  - apply mapM_result_cons in Hk1 as (y & k' & Hx & Hl & ->).
    destruct (IH k' Hl) as (k'' & Hl' & Hk).
    exists (y :: k''). split; [|by constructor].
    apply mapM_result_cons. by exists y, k''.
  - apply mapM_result_cons in Hk1 as (b1 & k' & Hy & Hl & ->).
    apply mapM_result_cons in Hl as (b2 & k'' & Hx & Hl & ->).
    exists (b2 :: b1 :: k''). split; [|apply Permutation_swap].
    apply mapM_result_cons. exists b2, (b1 :: k''). split; [done|]. split; [|done].
    apply mapM_result_cons. by exists b1, k''.
  - destruct (IH1 k1 Hk1) as (k2 & Hk2 & Hp1).
    destruct (IH2 k2 Hk2) as (k3 & Hk3 & Hp2).
    exists k3. split; [done|]. by etrans.
Qed.

Section RunFacts.
Variable urlopen : string -> result string.
Variable json_load : string -> result pyobj.
Variable ip_network : pyobj -> result network.
Variable net_str : network -> string.
Variable splitlines : string -> list string.

Lemma build_lines_plain (prefixes : list pyobj) (block : list string) :
  build_lines ip_network net_str prefixes = Ok block -> Forall plain block.
Proof.
  intros (nets & deduped & _ & _ & ->)%build_lines_Ok.
  apply Forall_fmap, Forall_forall. intros net _. apply rule_line_plain.
Qed.

(** X10. A prefix that [ip_network] rejects makes [build_lines] fail with
    that error, whatever comes after it: when the prefixes before it parse,
    the error of the first bad prefix is the error of [build_lines]. *)
Theorem build_lines_parse_error (good rest : list pyobj) (bad : pyobj)
    (nets : list network) (e : exn) :
  mapM ip_network good = Ok nets -> ip_network bad = Raise e ->
  build_lines ip_network net_str (good ++ bad :: rest) = Raise e.
Proof.
  intros Hgood Hbad. unfold build_lines.
  by rewrite (mapM_result_raise _ _ _ _ _ _ Hgood Hbad).
Qed.

(** X11. [build_lines] does not depend on the order of the prefixes when
    they all parse and no two distinct networks among them have the same
    version, address and prefix length (none differ in the scope id only):
    any rearrangement of such prefixes gives the same lines. *)
Theorem build_lines_permutation (prefixes1 prefixes2 : list pyobj)
    (nets : list network) :
  mapM ip_network prefixes1 = Ok nets ->
  (forall a b, a ∈ nets -> b ∈ nets ->
     key_by_prefixlen a = key_by_prefixlen b -> a = b) ->
  prefixes1 ≡ₚ prefixes2 ->
  build_lines ip_network net_str prefixes1 = build_lines ip_network net_str prefixes2.
Proof.
  intros Hnets Hties Hperm.
  destruct (mapM_result_Permutation _ _ _ _ Hperm Hnets) as (nets2 & Hnets2 & Hp).
  unfold build_lines. rewrite Hnets, Hnets2. simpl. unfold dedupe_subnets.
  by rewrite (sorted_by_prefixlen_perm nets nets2).
Qed.

(** X12. Whatever the response, a list that [fetch_prefixes] returns holds
    truthy values only: never [None], never the empty string. *)
Theorem fetch_prefixes_truthy (asn : Z) (prefixes : list pyobj) :
  fetch_prefixes urlopen json_load asn = Ok prefixes ->
  Forall (fun p => truthy p = true) prefixes /\
  (PyNone ∉ prefixes) /\ (PyStr EmptyString ∉ prefixes).
Proof.
  unfold fetch_prefixes.
  destruct (urlopen _) as [body|?]; [simpl|done].
  destruct (json_load body) as [data|?]; [simpl|done].
  destruct (py_get data _ _) as [d|?]; [simpl|done].
  destruct (py_get d _ _) as [ps|?]; [simpl|done].
  destruct (py_iter ps) as [entries|?]; [simpl|done].
  destruct (mapM _ entries) as [values|?]; [simpl|done].
  intros [= <-].
  assert (Hall : Forall (fun p => truthy p = true)
                   (filter (fun p => truthy p = true) values)).
  { apply Forall_forall. by intros p [Hp _]%list_elem_of_filter. }
  split; [done|]. rewrite Forall_forall in Hall.
  split; intros Hin; by apply Hall in Hin.
Qed.

(** X13. A response that decodes to something other than an object (a list,
    a string, a number, [null]) makes [fetch_prefixes] raise an
    [AttributeError] naming the type; so does an object whose ["data"] is
    present but is not an object. *)
Theorem fetch_prefixes_not_object (asn : Z) (body : string) (o : pyobj) :
  urlopen (RIPESTAT_format asn) = Ok body -> json_load body = Ok o ->
  ((forall items, o <> PyDict items) ->
   fetch_prefixes urlopen json_load asn
   = Raise (AttributeError
              ("'" +:+ type_name o +:+ "' object has no attribute 'get'"))) /\
  (forall top d, o = PyDict top -> dict_lookup "data" top = Some d ->
     (forall items, d <> PyDict items) ->
     fetch_prefixes urlopen json_load asn
     = Raise (AttributeError
                ("'" +:+ type_name d +:+ "' object has no attribute 'get'"))).
Proof.
  intros Hurl Hload. unfold fetch_prefixes. rewrite Hurl. simpl.
  rewrite Hload. simpl. split.
  - intros Hnot. destruct o; try done. by destruct (Hnot items).
  - intros top d -> Hd Hnot. simpl. rewrite Hd. simpl.
    destruct d; try done. by destruct (Hnot items).
Qed.

(** X14. [fetch_all] pools the prefixes of the ASNs in order: it succeeds
    exactly when every fetch succeeds, and then returns what it was given
    followed by the fetched lists, one after the other. *)
Theorem fetch_all_concat (asns : list Z) (acc prefixes : list pyobj) :
  fetch_all urlopen json_load asns acc = Ok prefixes <->
  exists fetched,
    Forall2 (fun asn ps => fetch_prefixes urlopen json_load asn = Ok ps) asns fetched /\
    prefixes = acc ++ concat fetched.
Proof.
  revert acc. induction asns as [|asn asns IH]; intros acc; simpl.
  - split.
    + intros [= <-]. exists []. split; [constructor|]. by rewrite app_nil_r.
    + intros (fetched & Hall & ->). apply Forall2_nil_inv_l in Hall as ->.
      by rewrite app_nil_r.
  - split.
    + destruct (fetch_prefixes urlopen json_load asn) as [ps|e] eqn:Hps; [|done].
      simpl. intros (fetched & Hall & ->)%IH.
      exists (ps :: fetched). split; [by constructor|].
      simpl. by rewrite (assoc_L (++)).
    + intros (fetched & Hall & ->).
      apply Forall2_cons_inv_l in Hall as (ps & fetched' & Hps & Hall & ->).
      rewrite Hps. simpl. apply IH. exists fetched'. split; [done|].
      simpl. by rewrite (assoc_L (++)).
Qed.
End RunFacts.

Lemma build_lines_parse_error_witness :
  mapM sample_ip_network [PyStr "10.0.0.0/8"] = Ok [Network IPv4 167772160 8 None] /\
  sample_ip_network (PyStr "banana")
  = Raise (ValueError "'banana' does not appear to be an IPv4 or IPv6 network") /\
  build_lines sample_ip_network sample_net_str
    ([PyStr "10.0.0.0/8"] ++ PyStr "banana" :: [PyStr "10.1.0.0/16"])
  = Raise (ValueError "'banana' does not appear to be an IPv4 or IPv6 network").
Proof.
  assert (H1 : mapM sample_ip_network [PyStr "10.0.0.0/8"]
               = Ok [Network IPv4 167772160 8 None]) by (vm_compute; reflexivity).
  assert (H2 : sample_ip_network (PyStr "banana")
    = Raise (ValueError "'banana' does not appear to be an IPv4 or IPv6 network"))
    by (vm_compute; reflexivity).
  split; [exact H1|]. split; [exact H2|].
  exact (build_lines_parse_error sample_ip_network sample_net_str
           _ [PyStr "10.1.0.0/16"] _ _ _ H1 H2).
Defined.

Lemma build_lines_permutation_witness :
  mapM sample_ip_network [PyStr "10.1.0.0/16"; PyStr "192.168.0.0/24"]
  = Ok [Network IPv4 167837696 16 None; Network IPv4 3232235520 24 None] /\
  (forall a b,
     a ∈ [Network IPv4 167837696 16 None; Network IPv4 3232235520 24 None] ->
     b ∈ [Network IPv4 167837696 16 None; Network IPv4 3232235520 24 None] ->
     key_by_prefixlen a = key_by_prefixlen b -> a = b) /\
  [PyStr "10.1.0.0/16"; PyStr "192.168.0.0/24"]
  ≡ₚ [PyStr "192.168.0.0/24"; PyStr "10.1.0.0/16"] /\
  build_lines sample_ip_network sample_net_str
    [PyStr "10.1.0.0/16"; PyStr "192.168.0.0/24"]
  = build_lines sample_ip_network sample_net_str
      [PyStr "192.168.0.0/24"; PyStr "10.1.0.0/16"].
Proof.
  assert (H1 : mapM sample_ip_network [PyStr "10.1.0.0/16"; PyStr "192.168.0.0/24"]
               = Ok [Network IPv4 167837696 16 None; Network IPv4 3232235520 24 None])
    by (vm_compute; reflexivity).
  assert (H2 : forall a b,
     a ∈ [Network IPv4 167837696 16 None; Network IPv4 3232235520 24 None] ->
     b ∈ [Network IPv4 167837696 16 None; Network IPv4 3232235520 24 None] ->
     key_by_prefixlen a = key_by_prefixlen b -> a = b).
  { intros a b Ha Hb.
    repeat (apply elem_of_cons in Ha as [->|Ha]);
      repeat (apply elem_of_cons in Hb as [->|Hb]);
      try (by apply elem_of_nil in Ha); try (by apply elem_of_nil in Hb);
      try done; vm_compute; congruence. }
  assert (H3 : [PyStr "10.1.0.0/16"; PyStr "192.168.0.0/24"]
               ≡ₚ [PyStr "192.168.0.0/24"; PyStr "10.1.0.0/16"])
    by apply Permutation_swap.
  split; [exact H1|]. split; [exact H2|]. split; [exact H3|].
  exact (build_lines_permutation sample_ip_network sample_net_str _ _ _ H1 H2 H3).
Defined.

Lemma fetch_prefixes_truthy_witness :
  fetch_prefixes sample_urlopen sample_json_load 20365
  = Ok [PyStr "10.1.0.0/16"; PyStr "10.0.0.0/8"] /\
  Forall (fun p => truthy p = true) [PyStr "10.1.0.0/16"; PyStr "10.0.0.0/8"] /\
  (PyNone ∉ [PyStr "10.1.0.0/16"; PyStr "10.0.0.0/8"]) /\
  (PyStr EmptyString ∉ [PyStr "10.1.0.0/16"; PyStr "10.0.0.0/8"]).
Proof.
  assert (H : fetch_prefixes sample_urlopen sample_json_load 20365
              = Ok [PyStr "10.1.0.0/16"; PyStr "10.0.0.0/8"])
    by (vm_compute; reflexivity).
  split; [exact H|].
  exact (fetch_prefixes_truthy sample_urlopen sample_json_load _ _ H).
Defined.

Lemma fetch_prefixes_not_object_witness :
  sample_urlopen_list (RIPESTAT_format 20365) = Ok "[]" /\
  sample_json_load_list "[]" = Ok (PyList []) /\
  ((forall items, PyList [] <> PyDict items) ->
   fetch_prefixes sample_urlopen_list sample_json_load_list 20365
   = Raise (AttributeError
              ("'" +:+ type_name (PyList []) +:+ "' object has no attribute 'get'"))) /\
  (forall top d, PyList [] = PyDict top -> dict_lookup "data" top = Some d ->
     (forall items, d <> PyDict items) ->
     fetch_prefixes sample_urlopen_list sample_json_load_list 20365
     = Raise (AttributeError
                ("'" +:+ type_name d +:+ "' object has no attribute 'get'"))).
Proof.
  assert (H1 : sample_urlopen_list (RIPESTAT_format 20365) = Ok "[]") by reflexivity.
  assert (H2 : sample_json_load_list "[]" = Ok (PyList [])) by reflexivity.
  split; [exact H1|]. split; [exact H2|].
  exact (fetch_prefixes_not_object sample_urlopen_list sample_json_load_list
           20365 _ _ H1 H2).
Defined.

Section UpdateFacts.
Variable urlopen : string -> result string.
Variable json_load : string -> result pyobj.
Variable ip_network : pyobj -> result network.
Variable net_str : network -> string.
Variable splitlines : string -> list string.

(** One turn of the loop over the sections. *)
Lemma update_sections_cons (header : string) (asns : list Z)
    (table : list (string * list Z)) (lines lines' : list string) :
  update_sections urlopen json_load ip_network net_str ((header, asns) :: table) lines
  = Ok lines' <->
  exists prefixes block lines1,
    fetch_all urlopen json_load asns [] = Ok prefixes /\
    build_lines ip_network net_str prefixes = Ok block /\
    replace_section lines header block = Ok lines1 /\
    update_sections urlopen json_load ip_network net_str table lines1 = Ok lines'.
Proof.
  simpl. split.
  - destruct (fetch_all urlopen json_load asns []) as [prefixes|e]; [|done]. simpl.
    destruct (build_lines ip_network net_str prefixes) as [block|e] eqn:Hb; [|done].
    simpl.
    destruct (replace_section lines header block) as [lines1|e] eqn:Hr; [|done].
    simpl. intros Hrest. by exists prefixes, block, lines1.
  - intros (prefixes & block & lines1 & -> & Hb & Hr & Hrest). simpl.
    rewrite Hb. simpl. by rewrite Hr.
Qed.

Lemma header_lines_replace_section (lines lines' : list string) (header : string)
    (new_block : list string) :
  replace_section lines header new_block = Ok lines' -> Forall plain new_block ->
  header_lines lines' = header_lines lines.
Proof.
  intros (before & body & after & -> & _ & Hbody & _ & ->)%replace_section_Ok_inv Hblk.
  unfold header_lines.
  rewrite !filter_app, !filter_cons, !filter_app, filter_cons.
  fold (header_lines new_block) (header_lines body).
  rewrite (header_lines_plain new_block), (header_lines_plain body) by done.
  by rewrite (decide_False (P := startswith "# " EmptyString = true)).
Qed.

Lemma update_sections_keeps_section (table : list (string * list Z))
    (lines lines' : list string) (other : string) (body : list string) :
  has_section lines other body -> other ∉ table.*1 ->
  update_sections urlopen json_load ip_network net_str table lines = Ok lines' ->
  has_section lines' other body.
Proof.
  revert lines. induction table as [|[header asns] table IH]; intros lines Hsec Hnotin.
  - by intros [= <-].
  - intros (prefixes & block & lines1 & _ & Hb & Hr & Hrest)%update_sections_cons.
    simpl in Hnotin. apply not_elem_of_cons in Hnotin as [Hne Hnotin].
    apply (IH lines1); [|done..].
    eapply replace_section_keeps_section; [exact Hsec|done| |exact Hr].
    by eapply build_lines_plain.
Qed.

(** X15. A successful pass over the sections neither adds, removes nor
    reorders header lines: the lines starting with ["# "] are the same
    before and after, whatever the table and the responses. *)
Theorem update_sections_header_lines (table : list (string * list Z))
    (lines lines' : list string) :
  update_sections urlopen json_load ip_network net_str table lines = Ok lines' ->
  header_lines lines' = header_lines lines.
Proof.
  revert lines. induction table as [|[header asns] table IH]; intros lines.
  - by intros [= <-].
  - intros (prefixes & block & lines1 & _ & Hb & Hr & Hrest)%update_sections_cons.
    rewrite (IH lines1 Hrest).
    eapply header_lines_replace_section; [exact Hr|]. by eapply build_lines_plain.
Qed.

(** X16. Sections that are not in the table are left alone: a section whose
    header is not configured has, after a successful pass, the body it had
    before, line for line. *)
Theorem update_sections_frame (table : list (string * list Z))
    (lines lines' : list string) (other : string) (body : list string) :
  has_section lines other body -> other ∉ table.*1 ->
  update_sections urlopen json_load ip_network net_str table lines = Ok lines' ->
  has_section lines' other body.
Proof. apply update_sections_keeps_section. Qed.

Lemma update_sections_installed (table : list (string * list Z))
    (lines lines' : list string) (header : string) (asns : list Z) :
  NoDup table.*1 ->
  update_sections urlopen json_load ip_network net_str table lines = Ok lines' ->
  (header, asns) ∈ table ->
  exists prefixes block,
    fetch_all urlopen json_load asns [] = Ok prefixes /\
    build_lines ip_network net_str prefixes = Ok block /\
    has_section lines' header (block ++ [EmptyString]).
Proof.
  revert lines. induction table as [|[h a] table IH]; intros lines Hnodup Hupd Hin.
  - by apply elem_of_nil in Hin.
  - simpl in Hnodup. apply NoDup_cons in Hnodup as [Hh Hnodup].
    apply update_sections_cons in Hupd
      as (prefixes & block & lines1 & Hf & Hb & Hr & Hrest).
    apply elem_of_cons in Hin as [[= -> ->]|Hin].
    + exists prefixes, block. split; [done|]. split; [done|].
      apply (update_sections_keeps_section table lines1); [|done..].
      eapply replace_section_installs; [exact Hr|]. by eapply build_lines_plain.
    + by apply (IH lines1).
Qed.

(** X17. After a successful pass over a table with distinct headers, every
    configured section holds exactly the rule lines built from the prefixes
    fetched for its ASNs, followed by one blank line, whatever later
    sections did to the file. *)
Theorem update_sections_result (table : list (string * list Z))
    (lines lines' : list string) :
  NoDup table.*1 ->
  update_sections urlopen json_load ip_network net_str table lines = Ok lines' ->
  forall header asns, (header, asns) ∈ table ->
    exists prefixes block,
      fetch_all urlopen json_load asns [] = Ok prefixes /\
      build_lines ip_network net_str prefixes = Ok block /\
      has_section lines' header (block ++ [EmptyString]).
Proof.
  intros Hnodup Hupd header asns Hin. by eapply update_sections_installed.
Qed.

Lemma update_sections_fixed (table : list (string * list Z))
    (lines lines' : list string) :
  NoDup table.*1 ->
  update_sections urlopen json_load ip_network net_str table lines = Ok lines' ->
  update_sections urlopen json_load ip_network net_str table lines' = Ok lines'.
Proof.
  revert lines. induction table as [|[h a] table IH]; intros lines Hnodup Hupd.
  - done.
  - pose proof Hupd as Hupd'.
    apply update_sections_cons in Hupd'
      as (prefixes & block & lines1 & Hf & Hb & Hr & Hrest).
    destruct (update_sections_installed _ _ _ h a Hnodup Hupd)
      as (prefixes' & block' & Hf' & Hb' & Hsec); [by left|].
    rewrite Hf in Hf'. injection Hf' as <-. rewrite Hb in Hb'. injection Hb' as <-.
    simpl in Hnodup. apply NoDup_cons in Hnodup as [_ Hnodup].
    apply update_sections_cons. exists prefixes, block, lines'.
    split; [done|]. split; [done|]. split; [by apply replace_section_same|].
    by apply (IH lines1).
Qed.

(** X18. The pass over the sections is idempotent: with distinct headers in
    the table and the same responses, running it again on its own result
    changes nothing. *)
Theorem update_sections_idempotent (table : list (string * list Z))
    (lines lines' : list string) :
  NoDup table.*1 ->
  update_sections urlopen json_load ip_network net_str table lines = Ok lines' ->
  update_sections urlopen json_load ip_network net_str table lines' = Ok lines'.
Proof. apply update_sections_fixed. Qed.

Lemma SECTION_ASNS_NoDup : NoDup SECTION_ASNS.*1.
Proof. apply (bool_decide_unpack _). vm_compute. exact I. Qed.

(** A run that succeeds found no write failure and changed the file only. *)
Lemma main_Ok_world (w w' : world) :
  main urlopen json_load ip_network net_str splitlines w = (Ok (), w') ->
  exists text lines,
    disk w = Some (TextFile text) /\
    update_sections urlopen json_load ip_network net_str
      SECTION_ASNS (splitlines text) = Ok lines /\
    w' = World (Some (TextFile (join NL lines +:+ NL))) None (stderr w).
Proof.
  rewrite main_unfold.
  destruct (disk w) as [[text|e']|]; [|done..].
  destruct (update_sections _ _ _ _ _ _) as [lines|e'] eqn:Hupd; [|done].
  unfold write_text.
  destruct (write_failure w) as [[e' [partial|]]|] eqn:Hw; [done..|].
  intros [= <-]. by exists text, lines.
Qed.

(** X19. A second run after a successful one changes nothing: when the
    responses are the same and [splitlines] reads back the lines that were
    written, [main] succeeds again and leaves the file as the first run
    wrote it. *)
Theorem main_idempotent (w w' : world) :
  main urlopen json_load ip_network net_str splitlines w = (Ok (), w') ->
  (forall text lines,
     disk w = Some (TextFile text) ->
     update_sections urlopen json_load ip_network net_str
       SECTION_ASNS (splitlines text) = Ok lines ->
     splitlines (join NL lines +:+ NL) = lines) ->
  main urlopen json_load ip_network net_str splitlines w' = (Ok (), w').
Proof.
  intros (text & lines & Hdisk & Hupd & ->)%main_Ok_world Hsplit.
  rewrite main_unfold. cbn [disk]. rewrite (Hsplit text lines Hdisk Hupd).
  by rewrite (update_sections_fixed _ _ _ SECTION_ASNS_NoDup Hupd).
Qed.

(** X20. A run that fails at any stage (a fetch, a decode, a CIDR parse, a
    missing header, a file that cannot be read or opened for writing) leaves
    the world as it found it; the file changes on failure only when the
    write itself breaks off after opening the file. *)
Theorem main_failure_preserves_file (w w' : world) (e : exn) :
  main urlopen json_load ip_network net_str splitlines w = (Raise e, w') ->
  (forall e' partial, write_failure w <> Some (e', Some partial)) ->
  w' = w.
Proof. apply main_raise_unchanged. Qed.

End UpdateFacts.

Lemma update_sections_header_lines_witness :
  update_sections sample_urlopen sample_json_load sample_ip_network sample_net_str
    SECTION_ASNS sample_file_lines = Ok sample_updated_lines /\
  header_lines sample_updated_lines = header_lines sample_file_lines.
Proof.
  assert (H : update_sections sample_urlopen sample_json_load sample_ip_network
                sample_net_str SECTION_ASNS sample_file_lines
              = Ok sample_updated_lines) by (vm_compute; reflexivity).
  split; [exact H|].
  exact (update_sections_header_lines sample_urlopen sample_json_load
           sample_ip_network sample_net_str _ _ _ H).
Defined.

Lemma update_sections_frame_witness :
  has_section ["# Notes"; "keep me"; "# Freedom Mobile"; "old"] "Notes" ["keep me"] /\
  ("Notes" ∉ [("Freedom Mobile", [20365; 36273])].*1) /\
  update_sections sample_urlopen sample_json_load sample_ip_network sample_net_str
    [("Freedom Mobile", [20365; 36273])]
    ["# Notes"; "keep me"; "# Freedom Mobile"; "old"]
  = Ok ["# Notes"; "keep me"; "# Freedom Mobile";
        "IP-CIDR,10.0.0.0/8,no-resolve"; EmptyString] /\
  has_section ["# Notes"; "keep me"; "# Freedom Mobile";
               "IP-CIDR,10.0.0.0/8,no-resolve"; EmptyString] "Notes" ["keep me"].
Proof.
  assert (H1 : has_section ["# Notes"; "keep me"; "# Freedom Mobile"; "old"]
                 "Notes" ["keep me"]).
  { exists [], ["# Freedom Mobile"; "old"]. split; [done|].
    split; [apply not_elem_of_nil|]. split; [by repeat constructor|].
    right. by exists "# Freedom Mobile", ["old"]. }
  assert (H2 : "Notes" ∉ [("Freedom Mobile", [20365; 36273])].*1).
  { apply (bool_decide_unpack _). vm_compute. exact I. }
  assert (H3 : update_sections sample_urlopen sample_json_load sample_ip_network
                 sample_net_str [("Freedom Mobile", [20365; 36273])]
                 ["# Notes"; "keep me"; "# Freedom Mobile"; "old"]
               = Ok ["# Notes"; "keep me"; "# Freedom Mobile";
                     "IP-CIDR,10.0.0.0/8,no-resolve"; EmptyString])
    by (vm_compute; reflexivity).
  repeat (split; [assumption|]).
  exact (update_sections_frame sample_urlopen sample_json_load sample_ip_network
           sample_net_str _ _ _ _ _ H1 H2 H3).
Defined.

Lemma update_sections_result_witness :
  NoDup SECTION_ASNS.*1 /\
  update_sections sample_urlopen sample_json_load sample_ip_network sample_net_str
    SECTION_ASNS sample_file_lines = Ok sample_updated_lines /\
  forall header asns, (header, asns) ∈ SECTION_ASNS ->
    exists prefixes block,
      fetch_all sample_urlopen sample_json_load asns [] = Ok prefixes /\
      build_lines sample_ip_network sample_net_str prefixes = Ok block /\
      has_section sample_updated_lines header (block ++ [EmptyString]).
Proof.
  assert (H : update_sections sample_urlopen sample_json_load sample_ip_network
                sample_net_str SECTION_ASNS sample_file_lines
              = Ok sample_updated_lines) by (vm_compute; reflexivity).
  split; [exact SECTION_ASNS_NoDup|]. split; [exact H|].
  exact (update_sections_result sample_urlopen sample_json_load sample_ip_network
           sample_net_str _ _ _ SECTION_ASNS_NoDup H).
Defined.

Lemma update_sections_idempotent_witness :
  NoDup SECTION_ASNS.*1 /\
  update_sections sample_urlopen sample_json_load sample_ip_network sample_net_str
    SECTION_ASNS sample_file_lines = Ok sample_updated_lines /\
  update_sections sample_urlopen sample_json_load sample_ip_network sample_net_str
    SECTION_ASNS sample_updated_lines = Ok sample_updated_lines.
Proof.
  assert (H : update_sections sample_urlopen sample_json_load sample_ip_network
                sample_net_str SECTION_ASNS sample_file_lines
              = Ok sample_updated_lines) by (vm_compute; reflexivity).
  split; [exact SECTION_ASNS_NoDup|]. split; [exact H|].
  exact (update_sections_idempotent sample_urlopen sample_json_load sample_ip_network
           sample_net_str _ _ _ SECTION_ASNS_NoDup H).
Defined.

Lemma main_idempotent_witness :
  main sample_urlopen sample_json_load sample_ip_network sample_net_str
    sample_splitlines sample_world
  = (Ok (), World (Some (TextFile (join NL sample_updated_lines +:+ NL))) None []) /\
  (forall text lines,
     disk sample_world = Some (TextFile text) ->
     update_sections sample_urlopen sample_json_load sample_ip_network sample_net_str
       SECTION_ASNS (sample_splitlines text) = Ok lines ->
     sample_splitlines (join NL lines +:+ NL) = lines) /\
  main sample_urlopen sample_json_load sample_ip_network sample_net_str
    sample_splitlines
    (World (Some (TextFile (join NL sample_updated_lines +:+ NL))) None [])
  = (Ok (), World (Some (TextFile (join NL sample_updated_lines +:+ NL))) None []).
Proof.
  assert (H1 : main sample_urlopen sample_json_load sample_ip_network sample_net_str
                 sample_splitlines sample_world
    = (Ok (), World (Some (TextFile (join NL sample_updated_lines +:+ NL))) None []))
    by (vm_compute; reflexivity).
  assert (H2 : forall text lines,
     disk sample_world = Some (TextFile text) ->
     update_sections sample_urlopen sample_json_load sample_ip_network sample_net_str
       SECTION_ASNS (sample_splitlines text) = Ok lines ->
     sample_splitlines (join NL lines +:+ NL) = lines).
  { intros text lines [= <-] Hupd. vm_compute in Hupd. injection Hupd as <-.
    vm_compute. reflexivity. }
  split; [exact H1|]. split; [exact H2|].
  exact (main_idempotent sample_urlopen sample_json_load sample_ip_network
           sample_net_str sample_splitlines _ _ H1 H2).
Defined.

Lemma main_failure_preserves_file_witness :
  main sample_urlopen sample_json_load sample_ip_network sample_net_str
    sample_splitlines sample_world_no_bell
  = (Raise (SystemExit "Missing section header: # Bell Mobility (AS36522)"),
     sample_world_no_bell) /\
  (forall e' partial, write_failure sample_world_no_bell <> Some (e', Some partial)) /\
  sample_world_no_bell = sample_world_no_bell.
Proof.
  assert (H1 : main sample_urlopen sample_json_load sample_ip_network sample_net_str
                 sample_splitlines sample_world_no_bell
    = (Raise (SystemExit "Missing section header: # Bell Mobility (AS36522)"),
       sample_world_no_bell)) by (vm_compute; reflexivity).
  assert (H2 : forall e' partial,
             write_failure sample_world_no_bell <> Some (e', Some partial))
    by (intros e' partial; discriminate).
  split; [exact H1|]. split; [exact H2|].
  exact (main_failure_preserves_file sample_urlopen sample_json_load
           sample_ip_network sample_net_str sample_splitlines _ _ _ H1 H2).
Defined.
